(** * Impala DDL text generation: a shallow embedding of [ibis/impala/ddl.py]

    The Python module builds SQL statement text by string formatting.  Every
    function and method that assembles text is transcribed below as a Rocq
    function over [string]; Python dictionaries are kept as insertion-ordered
    item lists, generators as the list of values they yield, and raised
    exceptions as the [Raise] branch of a small error monad. *)

From Stdlib Require Import ZArith Ascii String DecimalString.
From stdpp Require Import list sorting strings.

Local Open Scope Z_scope.

(** ** Python values and built-ins used by the module *)

Module Py.

(** Characters that cannot be written inside a Rocq string literal. *)
Definition nl : string := String "010"%char EmptyString.
Definition dquote : string := String "034"%char EmptyString.

(** [sep.join(l)] *)
Fixpoint join (sep : string) (l : list string) : string :=
  match l with
  | [] => ""
  | [x] => x
  | x :: l' => x +:+ sep +:+ join sep l'
  end.

(** The values a caller passes as partition values. *)
Inductive value : Type :=
  | VStr (s : string)
  | VInt (n : Z)
  | VBool (b : bool)
  | VNone.

(** [str(v)], which is also what ['{}'.format(v)] inserts. *)
Definition str (v : value) : string :=
  match v with
  | VStr s => s
  | VInt n => NilZero.string_of_int (Z.to_int n)
  | VBool true => "True"
  | VBool false => "False"
  | VNone => "None"
  end.

(** Exceptions: the two the module can raise itself, and [Other] for what
    imported code raises. *)
Inductive exn : Type :=
  | KeyError (key : string)
  | NotImplementedError
  | Other (name : string).

Inductive result (A : Type) : Type :=
  | Ok (a : A)
  | Raise (e : exn).
Global Arguments Ok {A} a.
Global Arguments Raise {A} e.

Global Instance result_ret : MRet result := fun A a => Ok a.
Global Instance result_bind : MBind result := fun A B f m =>
  match m with
  | Ok a => f a
  | Raise e => Raise e
  end.

(** A [for] loop that appends one value per element; the first exception
    ends it. *)
Fixpoint for_each {A B} (body : A → result B) (l : list A) : result (list B) :=
  match l with
  | [] => Ok []
  | x :: l' =>
      match body x with
      | Ok y =>
          match for_each body l' with
          | Ok ys => Ok (y :: ys)
          | Raise e => Raise e
          end
      | Raise e => Raise e
      end
  end.

(** A [dict] with string keys: its items in insertion order.  Python keeps
    the keys of a dict pairwise distinct, which is [dict_wf]. *)
Definition dict (V : Type) : Type := list (string * V).

Definition dict_wf {V} (d : dict V) : Prop := NoDup d.*1.

(** [d.get(k)]: [None] when [k not in d], so that [k in d] is [is_Some]. *)
Fixpoint dict_get {V} (d : dict V) (k : string) : option V :=
  match d with
  | [] => None
  | (k', v) :: d' => if decide (k' = k) then Some v else dict_get d' k
  end.

(** [zip(a, b)]: stops at the end of the shorter argument. *)
Fixpoint zip {A B} (a : list A) (b : list B) : list (A * B) :=
  match a, b with
  | x :: a', y :: b' => (x, y) :: zip a' b'
  | _, _ => []
  end.

End Py.
Import Py.

(** ** Data types and schemas *)

(** Modelled from the spec: [ibis.expr.datatypes] is not part of the module.
    A data type is a closed tagged variant (string, the integer family,
    decimal, timestamp, nested types); [dt_string] is the value the module
    compares against as [dt.string]. *)
Inductive DataType : Type :=
  | Boolean
  | Int8 | Int16 | Int32 | Int64
  | Float32 | Float64
  | String_
  | Date
  | Timestamp
  | Decimal (precision scale : N)
  | Array (value_type : DataType)
  | Map (key_type value_type : DataType).

Global Instance DataType_eq_dec : EqDecision DataType.
Proof. solve_decision. Defined.

Definition dt_string : DataType := String_.

(** Modelled from the spec: [ibis.expr.schema.Schema] is not part of the
    module.  A schema is an ordered mapping from column names (unique) to data
    types; iterating it yields the names in declared order and indexing it by
    a name yields that column's type. *)
Definition Schema : Type := list (string * DataType).

Definition schema_names (s : Schema) : list string := s.*1.

Definition schema_wf (s : Schema) : Prop := NoDup (schema_names s).

Definition schema_getitem (s : Schema) (name : string) : result DataType :=
  match dict_get s name with
  | Some t => Ok t
  | None => Raise (KeyError name)
  end.

(** ** Property blocks *)

(** The order of [sorted] on [(key, value)] tuples: keys first, values only
    between equal keys. *)
Definition item_le (a b : string * string) : Prop :=
  if decide (a.1 = b.1) then String.le a.2 b.2 else String.le a.1 b.1.

Global Instance item_le_dec : RelDecision item_le.
Proof. intros a b. unfold item_le. destruct (decide (a.1 = b.1)); apply _. Defined.

(** [sorted(props.items())] *)
Definition sorted_items (props : dict string) : list (string * string) :=
  merge_sort item_le props.

(** Strictly ascending keys. *)
Definition key_lt {V} (a b : string * V) : Prop := strict String.le a.1 b.1.

Definition property_token (kv : string * string) : string :=
  "  '" +:+ kv.1 +:+ "'='" +:+ kv.2 +:+ "'".

Definition _format_properties (props : dict string) : string :=
  let tokens := property_token <$> sorted_items props in
  "(" +:+ nl +:+ join ("," +:+ nl) tokens +:+ nl +:+ ")".

Definition _serdeproperties (props : dict string) : string :=
  let formatted_props := _format_properties props in
  "SERDEPROPERTIES " +:+ formatted_props.

Definition format_tblproperties (props : dict string) : string :=
  let formatted_props := _format_properties props in
  "TBLPROPERTIES " +:+ formatted_props.

(** ** Partition specifications *)

(** A partition spec is either a [dict] from column name to value or a
    positional sequence of values ([isinstance(partition, dict)] tells them
    apart). *)
Inductive PartitionSpec : Type :=
  | PartitionDict (d : dict value)
  | PartitionSeq (values : list value).

Definition _format_partition_kv (k : string) (v : value) (type : DataType)
    : string :=
  let value_formatted :=
    if decide (type = dt_string) then dquote +:+ str v +:+ dquote
    else str v in
  k +:+ "=" +:+ value_formatted.

Definition _format_partition (partition : PartitionSpec)
    (partition_schema : Schema) : result string :=
  tokens ←
    match partition with
    | PartitionDict d =>
        for_each (fun name =>
                match dict_get d name with
                | Some v =>
                    type ← schema_getitem partition_schema name;
                    mret (_format_partition_kv name v type)
                | None => mret name
                end)
             (schema_names partition_schema)
    | PartitionSeq values =>
        for_each (fun '(name, v) =>
                type ← schema_getitem partition_schema name;
                mret (_format_partition_kv name v type))
             (zip (schema_names partition_schema) values)
    end;
  mret ("PARTITION (" +:+ join ", " tokens +:+ ")").

(** The token a schema column contributes under a mapping spec. *)
Definition dict_token (d : dict value) (col : string * DataType) : string :=
  match dict_get d col.1 with
  | Some v => _format_partition_kv col.1 v col.2
  | None => col.1
  end.

(** ** Names and type spellings supplied by the base package *)

(** Modelled from the spec: [BaseQualifiedSQLStatement._get_scoped_name] is
    inherited from [ibis.backends.base_sql.ddl], which is not part of the
    module.  If the namespace is present the result is [namespace.name],
    otherwise the name is returned unchanged. *)
Definition _get_scoped_name (obj_name : string) (database : option string)
    : string :=
  match database with
  | Some db => db +:+ "." +:+ obj_name
  | None => obj_name
  end.

(** [type_to_sql_string] is imported from [ibis.backends.base_sql]; the
    functions that call it take it as an argument. *)
Definition _impala_input_signature (type_to_sql_string : DataType → string)
    (inputs : list DataType) : string :=
  join ", " (type_to_sql_string <$> inputs).

(** Truth value of an optional string: [None] and [''] are false. *)
Definition truthy (s : option string) : bool :=
  match s with
  | Some (String _ _) => true
  | _ => false
  end.

(** ** Generators *)

(** A generator is observed through the values it yields and the exception,
    if any, that ends the iteration. *)
Record generator : Type := Generator {
  yielded : list string;
  raised : option exn
}.

Definition yields (l : list string) : generator :=
  {| yielded := l; raised := None |}.

(** ** CREATE TABLE variants *)

Module CreateTableParquet.
Section with_base.
(** What [CreateTable.__init__] stores and the two inherited methods the
    generator calls; [format_schema] is imported from the base package. *)
Context {Base : Type}.
Variable _storage : Base → string.
Variable _location : Base → string.
Variable format_schema : Schema → string.

Record t : Type := Build {
  base : Base;
  example_file : option string;
  example_table : option string;
  schema : option Schema
}.

Definition _pieces (self : t) : generator :=
  match example_file self with
  | Some f =>
      yields ["LIKE PARQUET '" +:+ f +:+ "'";
              _storage (base self); _location (base self)]
  | None =>
      match example_table self with
      | Some tbl =>
          yields ["LIKE " +:+ tbl;
                  _storage (base self); _location (base self)]
      | None =>
          match schema self with
          | Some sch =>
              yields [format_schema sch;
                      _storage (base self); _location (base self)]
          | None =>
              {| yielded := []; raised := Some NotImplementedError |}
          end
      end
  end.
End with_base.
Global Arguments t : clear implicits.
End CreateTableParquet.

(** ** Storage formats *)

(** The lines an optional setting contributes. *)
Definition when_set {A} (o : option A) (f : A → string) : list string :=
  match o with
  | Some a => [f a]
  | None => []
  end.

Module DelimitedFormat.
Record t : Type := Build {
  path : string;
  delimiter : option string;
  escapechar : option string;
  lineterminator : option string;
  na_rep : option string
}.

Definition to_ddl (self : t) : list string :=
  ["ROW FORMAT DELIMITED"]
  ++ when_set (delimiter self)
       (fun d => "FIELDS TERMINATED BY '" +:+ d +:+ "'")
  ++ when_set (escapechar self)
       (fun e => "ESCAPED BY '" +:+ e +:+ "'")
  ++ when_set (lineterminator self)
       (fun l => "LINES TERMINATED BY '" +:+ l +:+ "'")
  ++ ["LOCATION '" +:+ path self +:+ "'"]
  ++ when_set (na_rep self)
       (fun n => format_tblproperties [("serialization.null.format", n)]).
End DelimitedFormat.

Module ParquetFormat.
Record t : Type := Build { path : string }.

Definition to_ddl (self : t) : list string :=
  ["STORED AS PARQUET"; "LOCATION '" +:+ path self +:+ "'"].
End ParquetFormat.

(** ** The Avro schema literal *)

(** [json.dumps(obj, indent=2, sort_keys=True)] on the values an Avro schema
    is made of (no floats), and the two string methods applied to its result.
    Characters are code points below 256. *)
Module Json.

Unset Elimination Schemes.
Inductive t : Type :=
  | JNull
  | JBool (b : bool)
  | JInt (n : Z)
  | JStr (s : string)
  | JList (l : list t)
  | JDict (items : dict t).
Set Elimination Schemes.

Definition backslash : string := String "092"%char EmptyString.

Definition hex_digit (n : N) : ascii :=
  match n with
  | 0 => "0" | 1 => "1" | 2 => "2" | 3 => "3" | 4 => "4" | 5 => "5"
  | 6 => "6" | 7 => "7" | 8 => "8" | 9 => "9" | 10 => "a" | 11 => "b"
  | 12 => "c" | 13 => "d" | 14 => "e" | _ => "f"
  end%N%char.

(** The replacement [py_encode_basestring_ascii] makes for one character:
    the short escapes, the printable ASCII range unchanged, and a [\u00XX]
    escape for everything else. *)
Definition escape_char (c : ascii) : string :=
  let n := N_of_ascii c in
  if decide (n = 34)%N then backslash +:+ dquote
  else if decide (n = 92)%N then backslash +:+ backslash
  else if decide (n = 10)%N then backslash +:+ "n"
  else if decide (n = 13)%N then backslash +:+ "r"
  else if decide (n = 9)%N then backslash +:+ "t"
  else if decide (n = 8)%N then backslash +:+ "b"
  else if decide (n = 12)%N then backslash +:+ "f"
  else if decide (32 ≤ n ≤ 126)%N then String c ""
  else backslash +:+ "u00"
       +:+ String (hex_digit (n / 16)) (String (hex_digit (n mod 16)) "").

Fixpoint escape (s : string) : string :=
  match s with
  | "" => ""
  | String c s' => escape_char c +:+ escape s'
  end.

Definition encode_basestring_ascii (s : string) : string :=
  dquote +:+ escape s +:+ dquote.

Fixpoint spaces (n : nat) : string :=
  match n with
  | O => ""
  | S n' => String " " (spaces n')
  end.

(** ['\n' + indent * level] with [indent = 2] *)
Definition newline_indent (level : nat) : string := nl +:+ spaces (2 * level).

Definition dict_entry (kv : string * string) : string :=
  encode_basestring_ascii kv.1 +:+ ": " +:+ kv.2.

(** The encoder at nesting depth [level].  A dict's values are encoded before
    its items are sorted, which keeps the recursion structural; the keys of a
    dict are distinct, so the order only ever looks at the keys. *)
Fixpoint encode (level : nat) (o : t) : string :=
  match o with
  | JNull => "null"
  | JBool true => "true"
  | JBool false => "false"
  | JInt n => NilZero.string_of_int (Z.to_int n)
  | JStr s => encode_basestring_ascii s
  | JList [] => "[]"
  | JList l =>
      "[" +:+ newline_indent (S level)
      +:+ join ("," +:+ newline_indent (S level)) (encode (S level) <$> l)
      +:+ newline_indent level +:+ "]"
  | JDict [] => "{}"
  | JDict items =>
      let encoded := (fun kv => (kv.1, encode (S level) kv.2)) <$> items in
      "{" +:+ newline_indent (S level)
      +:+ join ("," +:+ newline_indent (S level))
            (dict_entry <$> sorted_items encoded)
      +:+ newline_indent level +:+ "}"
  end.

Definition dumps (obj : t) : string := encode 0 obj.

(** Line boundaries of [str.splitlines]. *)
Definition is_linebreak (c : ascii) : bool :=
  let n := N_of_ascii c in
  bool_decide (10 ≤ n ≤ 13 ∨ 28 ≤ n ≤ 30 ∨ n = 133)%N.

(** [s.splitlines()]: a carriage return followed by a line feed is one
    boundary and a final boundary opens no further line. *)
Fixpoint splitlines_from (line : string) (s : string) : list string :=
  match s with
  | "" => if decide (line = "") then [] else [line]
  | String c s' =>
      if is_linebreak c then
        line ::
          match s' with
          | String c' s'' =>
              if decide (N_of_ascii c = 13 ∧ N_of_ascii c' = 10)%N
              then splitlines_from "" s''
              else splitlines_from "" s'
          | "" => splitlines_from "" s'
          end
      else splitlines_from (line +:+ String c "") s'
  end.

Definition splitlines (s : string) : list string := splitlines_from "" s.

(** White space of [str.rstrip] with no argument. *)
Definition is_space (c : ascii) : bool :=
  let n := N_of_ascii c in
  bool_decide (9 ≤ n ≤ 13 ∨ 28 ≤ n ≤ 32 ∨ n = 133 ∨ n = 160)%N.

Fixpoint rstrip (s : string) : string :=
  match s with
  | "" => ""
  | String c s' =>
      match rstrip s' with
      | "" => if is_space c then "" else String c ""
      | r => String c r
      end
  end.

End Json.

Module AvroFormat.
Record t : Type := Build { path : string; avro_schema : Json.t }.

Definition to_ddl (self : t) : list string :=
  let schema := Json.dumps (avro_schema self) in
  let schema := join nl (Json.rstrip <$> Json.splitlines schema) in
  let props := [("avro.schema.literal", schema)] in
  ["STORED AS AVRO";
   "LOCATION '" +:+ path self +:+ "'";
   format_tblproperties props].
End AvroFormat.

Module CreateTableAvro.
Record t : Type := Build { table_format : AvroFormat.t }.

Definition _pieces (self : t) : generator :=
  yields [join nl (AvroFormat.to_ddl (table_format self))].
End CreateTableAvro.

Module CreateTableDelimited.
(** The format object the constructor builds and hands to
    [CreateTableWithSchema]. *)
Definition table_format (path : string)
    (delimiter escapechar lineterminator na_rep : option string)
    : DelimitedFormat.t :=
  DelimitedFormat.Build path delimiter escapechar lineterminator na_rep.
End CreateTableDelimited.

(** ** INSERT and LOAD DATA *)

Module InsertSelect.
(** [select] holds the text [self.select.compile()] returns; the expression
    compiler is a different package. *)
Record t : Type := Build {
  table_name : string;
  select : string;
  database : option string;
  partition : option PartitionSpec;
  partition_schema : Schema;
  overwrite : bool
}.

Definition compile (self : t) : result string :=
  let cmd := if overwrite self then "INSERT OVERWRITE" else "INSERT INTO" in
  partition ←
    match partition self with
    | Some p =>
        part ← _format_partition p (partition_schema self);
        mret (" " +:+ part +:+ " ")
    | None => mret ""
    end;
  let select_query := select self in
  let scoped_name := _get_scoped_name (table_name self) (database self) in
  mret (cmd +:+ " " +:+ scoped_name +:+ partition +:+ nl +:+ select_query).
End InsertSelect.

Module LoadData.
Record t : Type := Build {
  table_name : string;
  path : string;
  database : option string;
  partition : option PartitionSpec;
  partition_schema : Schema;
  overwrite : bool
}.

Definition compile (self : t) : result string :=
  let overwrite := if overwrite self then "OVERWRITE " else "" in
  partition ←
    match partition self with
    | Some p =>
        part ← _format_partition p (partition_schema self);
        mret (nl +:+ part)
    | None => mret ""
    end;
  let scoped_name := _get_scoped_name (table_name self) (database self) in
  mret ("LOAD DATA INPATH '" +:+ path self +:+ "' " +:+ overwrite
        +:+ "INTO TABLE " +:+ scoped_name +:+ partition).
End LoadData.

(** ** ALTER TABLE and its partition variants *)

Module AlterTable.
(** The attributes [__init__] sets.  [format] is what [_sanitize_format]
    returned for the caller's argument. *)
Record t : Type := Build {
  table : string;
  location : option string;
  format : option string;
  tbl_properties : option (dict string);
  serde_properties : option (dict string)
}.

(** [_sanitize_format] is imported from the base package; the constructor
    takes it as an argument. *)
Definition __init__
    (_sanitize_format : option string → result (option string))
    (table : string) (location format : option string)
    (tbl_properties serde_properties : option (dict string)) : result t :=
  fmt ← _sanitize_format format;
  mret (Build table location fmt tbl_properties serde_properties).

Definition _wrap_command (cmd : string) : string := "ALTER TABLE " +:+ cmd.

Definition _format_properties (self : t) (prefix : string) : string :=
  let tokens :=
    when_set (location self) (fun l => "LOCATION '" +:+ l +:+ "'")
    ++ when_set (format self) (fun f => "FILEFORMAT " +:+ f)
    ++ when_set (tbl_properties self) format_tblproperties
    ++ when_set (serde_properties self) _serdeproperties in
  if decide (0 < length tokens)%nat
  then nl +:+ prefix +:+ join nl tokens
  else "".

Definition compile (self : t) : string :=
  let props := _format_properties self "" in
  let action := table self +:+ " SET " +:+ props in
  _wrap_command action.
End AlterTable.

Module PartitionProperties.
Record t : Type := Build {
  super : AlterTable.t;
  partition : PartitionSpec;
  partition_schema : Schema
}.

Definition __init__
    (_sanitize_format : option string → result (option string))
    (table : string) (partition : PartitionSpec) (partition_schema : Schema)
    (location format : option string)
    (tbl_properties serde_properties : option (dict string)) : result t :=
  super ←
    AlterTable.__init__ _sanitize_format table location format
      tbl_properties serde_properties;
  mret (Build super partition partition_schema).

Definition _compile (self : t) (cmd property_prefix : string)
    : result string :=
  part ← _format_partition (partition self) (partition_schema self);
  let part := if decide (cmd = "") then part else cmd +:+ " " +:+ part in
  let props := AlterTable._format_properties (super self) property_prefix in
  let action := AlterTable.table (super self) +:+ " " +:+ part +:+ props in
  mret (AlterTable._wrap_command action).
End PartitionProperties.

Module AddPartition.
Definition __init__
    (_sanitize_format : option string → result (option string))
    (table : string) (partition : PartitionSpec) (partition_schema : Schema)
    (location : option string) : result PartitionProperties.t :=
  PartitionProperties.__init__ _sanitize_format table partition
    partition_schema location None None None.

Definition compile (self : PartitionProperties.t) : result string :=
  PartitionProperties._compile self "ADD" "".
End AddPartition.

Module AlterPartition.
Definition compile (self : PartitionProperties.t) : result string :=
  PartitionProperties._compile self "" "SET ".
End AlterPartition.

Module DropPartition.
Definition __init__
    (_sanitize_format : option string → result (option string))
    (table : string) (partition : PartitionSpec) (partition_schema : Schema)
    : result PartitionProperties.t :=
  PartitionProperties.__init__ _sanitize_format table partition
    partition_schema None None None None.

Definition compile (self : PartitionProperties.t) : result string :=
  PartitionProperties._compile self "DROP" "".
End DropPartition.

Module RenameTable.
Record t : Type := Build {
  old_name : string;
  old_database : option string;
  new_name : string;
  new_database : option string;
  old_qualified_name : string;
  new_qualified_name : string
}.

Definition __init__ (old_name new_name : string)
    (old_database new_database : option string) : t :=
  let new_qualified_name :=
    match new_database with
    | Some _ => _get_scoped_name new_name new_database
    | None => new_name
    end in
  let old_qualified_name :=
    match old_database with
    | Some _ => _get_scoped_name old_name old_database
    | None => old_name
    end in
  Build old_name old_database new_name new_database
        old_qualified_name new_qualified_name.

Definition compile (self : t) : string :=
  let cmd := old_qualified_name self +:+ " RENAME TO "
             +:+ new_qualified_name self in
  AlterTable._wrap_command cmd.
End RenameTable.

Module TruncateTable.
Record t : Type := Build { table_name : string; database : option string }.

Definition compile (self : t) : string :=
  let name := _get_scoped_name (table_name self) (database self) in
  "TRUNCATE TABLE " +:+ name.
End TruncateTable.

Module CacheTable.
Record t : Type := Build {
  table_name : string;
  database : option string;
  pool : string
}.

Definition compile (self : t) : string :=
  let scoped_name := _get_scoped_name (table_name self) (database self) in
  "ALTER TABLE " +:+ scoped_name +:+ " SET CACHED IN '" +:+ pool self +:+ "'".
End CacheTable.

(** ** Function declarations *)

(** Modelled from the spec: the function wrappers of [ibis.impala.udf] are not
    part of the module.  A descriptor carries a name, the ordered input types,
    the output type, the library path, and either a single symbol (scalar) or
    up to five named phase symbols (aggregate). *)
Record ScalarFunction : Type := {
  udf_name : string;
  udf_inputs : list DataType;
  udf_output : DataType;
  udf_lib_path : string;
  so_symbol : string
}.

Record AggregateFunction : Type := {
  uda_name : string;
  uda_inputs : list DataType;
  uda_output : DataType;
  uda_lib_path : string;
  init_fn : option string;
  update_fn : option string;
  merge_fn : option string;
  serialize_fn : option string;
  finalize_fn : option string
}.

(** [getattr(func, fn)] for the five attribute names [CreateUDA.compile]
    iterates over. *)
Inductive phase : Type :=
  | Init | Update | Merge | Serialize | Finalize.

Definition phase_name (fn : phase) : string :=
  match fn with
  | Init => "init_fn"
  | Update => "update_fn"
  | Merge => "merge_fn"
  | Serialize => "serialize_fn"
  | Finalize => "finalize_fn"
  end.

Definition getattr (func : AggregateFunction) (fn : phase) : option string :=
  match fn with
  | Init => init_fn func
  | Update => update_fn func
  | Merge => merge_fn func
  | Serialize => serialize_fn func
  | Finalize => finalize_fn func
  end.

(** The assignment one phase contributes to CREATE AGGREGATE FUNCTION. *)
Definition phase_assignment (fn : string) (symbol : option string)
    : list string :=
  match symbol with
  | Some value => [fn +:+ "='" +:+ value +:+ "'"]
  | None => []
  end.

Module CreateFunction.
Section with_types.
Variable type_to_sql_string : DataType → string.

(** [name or func.name] *)
Definition name_or (name : option string) (func_name : string) : string :=
  match name with
  | Some n => if truthy name then n else func_name
  | None => func_name
  end.

Definition _impala_signature (name : string) (database : option string)
    (inputs : list DataType) (output : DataType) : string :=
  let scoped_name := _get_scoped_name name database in
  let input_sig := _impala_input_signature type_to_sql_string inputs in
  let output_sig := type_to_sql_string output in
  scoped_name +:+ "(" +:+ input_sig +:+ ") returns " +:+ output_sig.
End with_types.
End CreateFunction.

Module CreateUDF.
Section with_types.
Variable type_to_sql_string : DataType → string.

Record t : Type := Build {
  func : ScalarFunction;
  name : string;
  database : option string
}.

Definition __init__ (func : ScalarFunction) (name database : option string)
    : t :=
  Build func (CreateFunction.name_or name (udf_name func)) database.

Definition compile (self : t) : string :=
  let create_decl := "CREATE FUNCTION" in
  let impala_sig :=
    CreateFunction._impala_signature type_to_sql_string (name self)
      (database self) (udf_inputs (func self)) (udf_output (func self)) in
  let param_line :=
    "location '" +:+ udf_lib_path (func self) +:+ "' symbol='"
    +:+ so_symbol (func self) +:+ "'" in
  join " " [create_decl; impala_sig; param_line].
End with_types.
End CreateUDF.

Module CreateUDA.
Section with_types.
Variable type_to_sql_string : DataType → string.

Record t : Type := Build {
  func : AggregateFunction;
  name : string;
  database : option string
}.

Definition __init__ (func : AggregateFunction)
    (name database : option string) : t :=
  Build func (CreateFunction.name_or name (uda_name func)) database.

Definition fn_names : list phase :=
  [Init; Update; Merge; Serialize; Finalize].

(** The loop over [fn_names], appending to [tokens]. *)
Fixpoint append_phases (func : AggregateFunction) (fns : list phase)
    (tokens : list string) : list string :=
  match fns with
  | [] => tokens
  | fn :: fns' =>
      match getattr func fn with
      | Some value =>
          append_phases func fns'
            (tokens ++ [phase_name fn +:+ "='" +:+ value +:+ "'"])
      | None => append_phases func fns' tokens
      end
  end.

Definition compile (self : t) : string :=
  let create_decl := "CREATE AGGREGATE FUNCTION" in
  let impala_sig :=
    CreateFunction._impala_signature type_to_sql_string (name self)
      (database self) (uda_inputs (func self)) (uda_output (func self)) in
  let tokens :=
    append_phases (func self) fn_names
      ["location '" +:+ uda_lib_path (func self) +:+ "'"] in
  join " " [create_decl; impala_sig] +:+ " " +:+ join nl tokens.
End with_types.
End CreateUDA.

Module DropFunction.
Section with_types.
Variable type_to_sql_string : DataType → string.

Record t : Type := Build {
  name : string;
  inputs : list DataType;
  must_exist : bool;
  aggregate : bool;
  database : option string
}.

Definition _impala_signature (self : t) : string :=
  let full_name := _get_scoped_name (name self) (database self) in
  let input_sig := _impala_input_signature type_to_sql_string (inputs self) in
  full_name +:+ "(" +:+ input_sig +:+ ")".

Definition _object_name (self : t) : string := name self.

(** The token list [compile] joins with single spaces. *)
Definition tokens (self : t) : list string :=
  ["DROP"]
  ++ (if aggregate self then ["AGGREGATE"] else [])
  ++ ["FUNCTION"]
  ++ (if negb (must_exist self) then ["IF EXISTS"] else [])
  ++ [_impala_signature self].

Definition compile (self : t) : string := join " " (tokens self).
End with_types.
End DropFunction.

Module ListFunction.
Record t : Type := Build {
  database : string;
  like : option string;
  aggregate : bool
}.

Definition compile (self : t) : string :=
  let statement := "SHOW " in
  let statement :=
    if aggregate self then statement +:+ "AGGREGATE " else statement in
  let statement := statement +:+ "FUNCTIONS IN " +:+ database self in
  match like self with
  | Some pattern =>
      if truthy (like self) then statement +:+ " LIKE '" +:+ pattern +:+ "'"
      else statement
  | None => statement
  end.
End ListFunction.

(** ** Every statement object of the module *)

(** What a caller observes of an object: the text [compile] returns (or the
    exception it raises), or the fragments that [to_ddl] or [_pieces]
    yields. *)
Definition returned (r : result string) : generator :=
  match r with
  | Ok text => yields [text]
  | Raise e => {| yielded := []; raised := Some e |}
  end.

Section Statements.
Context {Base : Type}.
Variable type_to_sql_string : DataType → string.
Variable _storage : Base → string.
Variable _location : Base → string.
Variable format_schema : Schema → string.

Inductive Statement : Type :=
  | StmtCreateTableParquet (s : CreateTableParquet.t Base)
  | StmtDelimitedFormat (s : DelimitedFormat.t)
  | StmtAvroFormat (s : AvroFormat.t)
  | StmtParquetFormat (s : ParquetFormat.t)
  | StmtCreateTableAvro (s : CreateTableAvro.t)
  | StmtInsertSelect (s : InsertSelect.t)
  | StmtLoadData (s : LoadData.t)
  | StmtAlterTable (s : AlterTable.t)
  | StmtAddPartition (s : PartitionProperties.t)
  | StmtAlterPartition (s : PartitionProperties.t)
  | StmtDropPartition (s : PartitionProperties.t)
  | StmtRenameTable (s : RenameTable.t)
  | StmtTruncateTable (s : TruncateTable.t)
  | StmtCacheTable (s : CacheTable.t)
  | StmtCreateUDF (s : CreateUDF.t)
  | StmtCreateUDA (s : CreateUDA.t)
  | StmtDropFunction (s : DropFunction.t)
  | StmtListFunction (s : ListFunction.t).

Definition emitted (stmt : Statement) : generator :=
  match stmt with
  | StmtCreateTableParquet s =>
      CreateTableParquet._pieces _storage _location format_schema s
  | StmtDelimitedFormat s => yields (DelimitedFormat.to_ddl s)
  | StmtAvroFormat s => yields (AvroFormat.to_ddl s)
  | StmtParquetFormat s => yields (ParquetFormat.to_ddl s)
  | StmtCreateTableAvro s => CreateTableAvro._pieces s
  | StmtInsertSelect s => returned (InsertSelect.compile s)
  | StmtLoadData s => returned (LoadData.compile s)
  | StmtAlterTable s => returned (Ok (AlterTable.compile s))
  | StmtAddPartition s => returned (AddPartition.compile s)
  | StmtAlterPartition s => returned (AlterPartition.compile s)
  | StmtDropPartition s => returned (DropPartition.compile s)
  | StmtRenameTable s => returned (Ok (RenameTable.compile s))
  | StmtTruncateTable s => returned (Ok (TruncateTable.compile s))
  | StmtCacheTable s => returned (Ok (CacheTable.compile s))
  | StmtCreateUDF s => returned (Ok (CreateUDF.compile type_to_sql_string s))
  | StmtCreateUDA s => returned (Ok (CreateUDA.compile type_to_sql_string s))
  | StmtDropFunction s =>
      returned (Ok (DropFunction.compile type_to_sql_string s))
  | StmtListFunction s => returned (Ok (ListFunction.compile s))
  end.

End Statements.

(** ** Objects built from identical inputs *)

(** Two Python dicts are equal when they hold the same items, whatever the
    order of insertion.  The relations below lift this to every object that
    stores a dict; everything else has to be equal. *)
Inductive same_partition : PartitionSpec → PartitionSpec → Prop :=
  | same_partition_dict d1 d2 :
      dict_wf d1 → d1 ≡ₚ d2 →
      same_partition (PartitionDict d1) (PartitionDict d2)
  | same_partition_seq values :
      same_partition (PartitionSeq values) (PartitionSeq values).

Definition same_properties : relation (option (dict string)) :=
  option_Forall2 (≡ₚ).

Unset Elimination Schemes.
Inductive same_json : Json.t → Json.t → Prop :=
  | same_JNull : same_json Json.JNull Json.JNull
  | same_JBool b : same_json (Json.JBool b) (Json.JBool b)
  | same_JInt n : same_json (Json.JInt n) (Json.JInt n)
  | same_JStr s : same_json (Json.JStr s) (Json.JStr s)
  | same_JList l1 l2 :
      Forall2 same_json l1 l2 →
      same_json (Json.JList l1) (Json.JList l2)
  | same_JDict d1 d1' d2 :
      d1 ≡ₚ d1' →
      Forall2 (fun a b => a.1 = b.1 ∧ same_json a.2 b.2) d1' d2 →
      same_json (Json.JDict d1) (Json.JDict d2).
Set Elimination Schemes.

(** Induction over a derivation of [same_json], through the lists of a JSON
    array and the item lists of a JSON object. *)
Section same_json_ind.
Variable P : Json.t → Json.t → Prop.
Hypothesis P_null : P Json.JNull Json.JNull.
Hypothesis P_bool : ∀ b, P (Json.JBool b) (Json.JBool b).
Hypothesis P_int : ∀ n, P (Json.JInt n) (Json.JInt n).
Hypothesis P_str : ∀ s, P (Json.JStr s) (Json.JStr s).
Hypothesis P_list : ∀ l1 l2,
  Forall2 P l1 l2 → P (Json.JList l1) (Json.JList l2).
Hypothesis P_dict : ∀ d1 d1' d2,
  d1 ≡ₚ d1' →
  Forall2 (fun a b => a.1 = b.1 ∧ P a.2 b.2) d1' d2 →
  P (Json.JDict d1) (Json.JDict d2).

Fixpoint same_json_ind (j1 j2 : Json.t) (H : same_json j1 j2) : P j1 j2 :=
  match H with
  | same_JNull => P_null
  | same_JBool b => P_bool b
  | same_JInt n => P_int n
  | same_JStr s => P_str s
  | same_JList l1 l2 Hl =>
      P_list l1 l2
        ((fix go l1 l2 (Hl : Forall2 same_json l1 l2) : Forall2 P l1 l2 :=
            match Hl with
            | List.Forall2_nil _ => List.Forall2_nil _
            | List.Forall2_cons _ _ Hx Hl' =>
                List.Forall2_cons _ _ (same_json_ind _ _ Hx) (go _ _ Hl')
            end) l1 l2 Hl)
  | same_JDict d1 d1' d2 Hperm Hd =>
      P_dict d1 d1' d2 Hperm
        ((fix go d1 d2
              (Hd : Forall2 (fun a b => a.1 = b.1 ∧ same_json a.2 b.2) d1 d2)
            : Forall2 (fun a b => a.1 = b.1 ∧ P a.2 b.2) d1 d2 :=
            match Hd with
            | List.Forall2_nil _ => List.Forall2_nil _
            | List.Forall2_cons _ _ (conj Hk Hv) Hd' =>
                List.Forall2_cons _ _
                  (conj Hk (same_json_ind _ _ Hv)) (go _ _ Hd')
            end) d1' d2 Hd)
  end.
End same_json_ind.

Inductive same_alter_table : relation AlterTable.t :=
  | same_alter_table_intro table location format tbl1 tbl2 serde1 serde2 :
      same_properties tbl1 tbl2 → same_properties serde1 serde2 →
      same_alter_table
        (AlterTable.Build table location format tbl1 serde1)
        (AlterTable.Build table location format tbl2 serde2).

Inductive same_partition_properties : relation PartitionProperties.t :=
  | same_partition_properties_intro a1 a2 p1 p2 schema :
      same_alter_table a1 a2 → same_partition p1 p2 →
      same_partition_properties
        (PartitionProperties.Build a1 p1 schema)
        (PartitionProperties.Build a2 p2 schema).

Inductive same_inputs {Base : Type} : relation (@Statement Base) :=
  | same_identical s : same_inputs s s
  | same_AvroFormat path j1 j2 :
      same_json j1 j2 →
      same_inputs (StmtAvroFormat (AvroFormat.Build path j1))
                  (StmtAvroFormat (AvroFormat.Build path j2))
  | same_CreateTableAvro path j1 j2 :
      same_json j1 j2 →
      same_inputs
        (StmtCreateTableAvro (CreateTableAvro.Build (AvroFormat.Build path j1)))
        (StmtCreateTableAvro (CreateTableAvro.Build (AvroFormat.Build path j2)))
  | same_InsertSelect table_name select database p1 p2 schema overwrite :
      option_Forall2 same_partition p1 p2 →
      same_inputs
        (StmtInsertSelect
           (InsertSelect.Build table_name select database p1 schema overwrite))
        (StmtInsertSelect
           (InsertSelect.Build table_name select database p2 schema overwrite))
  | same_LoadData table_name path database p1 p2 schema overwrite :
      option_Forall2 same_partition p1 p2 →
      same_inputs
        (StmtLoadData
           (LoadData.Build table_name path database p1 schema overwrite))
        (StmtLoadData
           (LoadData.Build table_name path database p2 schema overwrite))
  | same_AlterTable a1 a2 :
      same_alter_table a1 a2 →
      same_inputs (StmtAlterTable a1) (StmtAlterTable a2)
  | same_AddPartition s1 s2 :
      same_partition_properties s1 s2 →
      same_inputs (StmtAddPartition s1) (StmtAddPartition s2)
  | same_AlterPartition s1 s2 :
      same_partition_properties s1 s2 →
      same_inputs (StmtAlterPartition s1) (StmtAlterPartition s2)
  | same_DropPartition s1 s2 :
      same_partition_properties s1 s2 →
      same_inputs (StmtDropPartition s1) (StmtDropPartition s2).

(** ** The shape of a JSON dump *)

(** Structural induction on JSON values, through arrays and objects. *)
Section json_ind.
Variable P : Json.t → Prop.
Hypothesis P_null : P Json.JNull.
Hypothesis P_bool : ∀ b, P (Json.JBool b).
Hypothesis P_int : ∀ n, P (Json.JInt n).
Hypothesis P_str : ∀ s, P (Json.JStr s).
Hypothesis P_list : ∀ l, Forall P l → P (Json.JList l).
Hypothesis P_dict : ∀ items : dict Json.t,
  Forall (fun kv => P kv.2) items → P (Json.JDict items).

Fixpoint json_ind (j : Json.t) : P j :=
  match j with
  | Json.JNull => P_null
  | Json.JBool b => P_bool b
  | Json.JInt n => P_int n
  | Json.JStr s => P_str s
  | Json.JList l =>
      P_list l
        ((fix go (l : list Json.t) : Forall P l :=
            match l with
            | [] => List.Forall_nil _
            | x :: l' => ListDef.Forall_cons P x l' (json_ind x) (go l')
            end) l)
  | Json.JDict items =>
      P_dict items
        ((fix go (items : dict Json.t) : Forall (fun kv => P kv.2) items :=
            match items with
            | [] => List.Forall_nil _
            | kv :: items' =>
                ListDef.Forall_cons (fun kv => P kv.2) kv items'
                  (json_ind kv.2) (go items')
            end) items)
  end.
End json_ind.

(** Printable ASCII, from the space to the tilde. *)
Definition printable (c : ascii) : bool :=
  bool_decide (32 ≤ N_of_ascii c ≤ 126)%N.

(** Printable ASCII other than the space. *)
Definition visible (c : ascii) : bool :=
  bool_decide (33 ≤ N_of_ascii c ≤ 126)%N.

(** Printable ASCII or a line feed. *)
Definition printable_or_nl (c : ascii) : bool :=
  printable c || bool_decide (N_of_ascii c = 10%N).

Fixpoint string_forall (p : ascii → bool) (s : string) : bool :=
  match s with
  | "" => true
  | String c s' => p c && string_forall p s'
  end.

(** A line of text that [splitlines] and [rstrip] leave alone: printable,
    not empty, no white space at its end. *)
Definition line_ok (l : string) : Prop :=
  string_forall printable l = true ∧ Json.rstrip l = l ∧ l ≠ "".

(** A text made of such lines, separated by line feeds. *)
Definition multiline (s : string) : Prop :=
  ∃ lines : list string,
    lines ≠ [] ∧ Forall line_ok lines ∧ s = join nl lines.

(** * Properties *)

(** ** Concatenation *)

Lemma append_assoc (s1 s2 s3 : string) :
  (s1 +:+ s2) +:+ s3 = s1 +:+ s2 +:+ s3.
Proof.
  induction s1 as [|c s1 IH]; [done|].
  change (String c ((s1 +:+ s2) +:+ s3) = String c (s1 +:+ s2 +:+ s3)).
  by f_equal.
Qed.

Lemma append_nil_r (s : string) : s +:+ "" = s.
Proof.
  induction s as [|c s IH]; [done|].
  change (String c (s +:+ "") = String c s). by f_equal.
Qed.

(** ** The order behind [sorted] *)

Global Instance item_le_po : PartialOrder item_le.
Proof.
  split; [split|].
  - intros a. unfold item_le. rewrite decide_True by done. done.
  - intros a b c. unfold item_le.
    destruct (decide (a.1 = b.1)) as [Hab|Hab],
             (decide (b.1 = c.1)) as [Hbc|Hbc]; intros H1 H2.
    + rewrite decide_True by congruence. by etrans.
    + rewrite decide_False by congruence. by rewrite Hab.
    + rewrite decide_False by congruence. by rewrite <-Hbc.
    + destruct (decide (a.1 = c.1)) as [Hac|Hac]; [|by etrans].
      destruct Hab. apply (anti_symm String.le); [done|]. by rewrite Hac.
  - intros [k1 v1] [k2 v2]. unfold item_le; simpl.
    destruct (decide (k1 = k2)) as [->|Hne]; intros H1 H2.
    + rewrite decide_True in H2 by done. f_equal. by apply (anti_symm String.le).
    + rewrite decide_False in H2 by done.
      destruct Hne. by apply (anti_symm String.le).
Qed.

Global Instance item_le_total : Total item_le.
Proof.
  intros a b. unfold item_le.
  destruct (decide (a.1 = b.1)) as [Hab|Hab].
  - rewrite decide_True by done. apply (total String.le).
  - rewrite decide_False by done. apply (total String.le).
Qed.

(** [sorted] returns the one sorted arrangement of its argument. *)
Lemma sorted_items_Permutation props : sorted_items props ≡ₚ props.
Proof. apply merge_sort_Permutation. Qed.

Lemma sorted_items_sorted props : StronglySorted item_le (sorted_items props).
Proof. apply StronglySorted_merge_sort; apply _. Qed.

Lemma sorted_items_proper props1 props2 :
  props1 ≡ₚ props2 → sorted_items props1 = sorted_items props2.
Proof.
  intros Hperm. apply (StronglySorted_unique item_le).
  - apply sorted_items_sorted.
  - apply sorted_items_sorted.
  - by rewrite !sorted_items_Permutation.
Qed.

Lemma sorted_items_key_lt props :
  dict_wf props → StronglySorted key_lt (sorted_items props).
Proof.
  intros Hwf.
  assert (NoDup (sorted_items props).*1) as Hnd.
  { unfold dict_wf in Hwf. by rewrite sorted_items_Permutation. }
  pose proof (sorted_items_sorted props) as Hs.
  induction Hs as [|a l Hs IH Hall]; [constructor|].
  apply NoDup_cons in Hnd as [Hnotin Hnd].
  constructor; [by apply IH|].
  apply Forall_forall. intros b Hb.
  rewrite Forall_forall in Hall. specialize (Hall b Hb).
  assert (a.1 ≠ b.1) as Hne.
  { intros Heq. apply Hnotin. simpl. rewrite Heq.
    apply list_elem_of_fmap. by exists b. }
  unfold item_le in Hall. rewrite decide_False in Hall by done.
  split; [done|]. intros Hba. apply Hne. by apply (anti_symm String.le).
Qed.

(** ** Partition literals *)

(** C1.  The key-value formatter wraps the stringified value in double quotes
    exactly when the column's declared type is the string type; for every
    other declared type it emits [name=value] with the value stringified
    directly. *)
Theorem format_partition_kv_quoting (k : string) (v : value) (type : DataType) :
  (type = dt_string →
     _format_partition_kv k v type = k +:+ "=" +:+ dquote +:+ str v +:+ dquote)
  ∧ (type ≠ dt_string →
     _format_partition_kv k v type = k +:+ "=" +:+ str v).
Proof.
  unfold _format_partition_kv. split; intros Htype.
  - by rewrite decide_True.
  - by rewrite decide_False.
Qed.

Lemma format_partition_kv_quoting_witness :
  _format_partition_kv "col" (VStr "2020-01-01") dt_string
    = "col=" +:+ dquote +:+ "2020-01-01" +:+ dquote
  ∧ _format_partition_kv "col" (VInt 5) Int64 = "col=5".
Proof.
  split.
  - apply (format_partition_kv_quoting "col" (VStr "2020-01-01") dt_string).
    reflexivity.
  - apply (format_partition_kv_quoting "col" (VInt 5) Int64).
    discriminate.
Defined.

(** ** Property blocks *)

(** C3.  A property map is serialized as a parenthesized block holding its
    items in strictly ascending key order, one ['key'='value'] entry per line,
    separated by commas with none after the last entry, keys and values
    copied between single quotes as they are; the block does not depend on
    the order in which the map was filled. *)
Theorem format_properties_sorted_block (props : dict string) :
  dict_wf props →
  ∃ items : list (string * string),
    items ≡ₚ props
    ∧ StronglySorted key_lt items
    ∧ _format_properties props =
        "(" +:+ nl
        +:+ join ("," +:+ nl)
              ((fun kv => "  '" +:+ kv.1 +:+ "'='" +:+ kv.2 +:+ "'") <$> items)
        +:+ nl +:+ ")"
    ∧ ∀ props' : dict string,
        props' ≡ₚ props → _format_properties props' = _format_properties props.
Proof.
  intros Hwf. exists (sorted_items props). split_and!.
  - apply sorted_items_Permutation.
  - by apply sorted_items_key_lt.
  - reflexivity.
  - intros props' Hperm. unfold _format_properties.
    by rewrite (sorted_items_proper props' props).
Qed.

Lemma format_properties_sorted_block_witness :
  ∃ items : list (string * string),
    items ≡ₚ [("b", "1"); ("a", "it's")]
    ∧ StronglySorted key_lt items
    ∧ _format_properties [("b", "1"); ("a", "it's")] =
        "(" +:+ nl
        +:+ join ("," +:+ nl)
              ((fun kv => "  '" +:+ kv.1 +:+ "'='" +:+ kv.2 +:+ "'") <$> items)
        +:+ nl +:+ ")"
    ∧ ∀ props' : dict string,
        props' ≡ₚ [("b", "1"); ("a", "it's")] →
        _format_properties props' = _format_properties [("b", "1"); ("a", "it's")].
Proof.
  apply (format_properties_sorted_block [("b", "1"); ("a", "it's")]).
  unfold dict_wf. apply (bool_decide_unpack _). vm_compute. exact I.
Defined.

(** ** Dictionaries and schema lookups *)

Lemma dict_get_elem {V} (d : dict V) (k : string) (v : V) :
  dict_wf d → (k, v) ∈ d → dict_get d k = Some v.
Proof.
  unfold dict_wf. induction d as [|[k' v'] d IH]; simpl; intros Hnd Hin.
  - by apply elem_of_nil in Hin.
  - apply NoDup_cons in Hnd as [Hnotin Hnd].
    apply elem_of_cons in Hin as [Heq|Hin].
    + injection Heq as -> ->. by rewrite decide_True.
    + rewrite decide_False; [by apply IH|].
      intros ->. apply Hnotin, list_elem_of_fmap. by exists (k, v).
Qed.

Lemma dict_get_Some {V} (d : dict V) (k : string) (v : V) :
  dict_get d k = Some v → (k, v) ∈ d.
Proof.
  induction d as [|[k' v'] d IH]; simpl; [done|].
  destruct (decide (k' = k)) as [->|Hne]; intros Hget.
  - injection Hget as ->. by left.
  - right. by apply IH.
Qed.

(** Lookups do not depend on the order of insertion. *)
Lemma dict_get_Permutation {V} (d1 d2 : dict V) (k : string) :
  dict_wf d1 → d1 ≡ₚ d2 → dict_get d1 k = dict_get d2 k.
Proof.
  intros Hwf1 Hperm.
  assert (dict_wf d2) as Hwf2 by (unfold dict_wf in *; by rewrite <-Hperm).
  destruct (dict_get d1 k) as [v|] eqn:H1.
  - symmetry. apply dict_get_elem; [done|].
    rewrite <-Hperm. by apply dict_get_Some.
  - destruct (dict_get d2 k) as [v|] eqn:H2; [|done].
    apply dict_get_Some in H2. rewrite <-Hperm in H2.
    apply (dict_get_elem _ _ _ Hwf1) in H2. congruence.
Qed.

Lemma schema_getitem_elem (s : Schema) (name : string) (type : DataType) :
  schema_wf s → (name, type) ∈ s → schema_getitem s name = Ok type.
Proof.
  intros Hwf Hin. unfold schema_getitem.
  by rewrite (dict_get_elem s name type Hwf Hin).
Qed.

(** The two loops of [_format_partition] run over the names of a schema; when
    the body succeeds on every column, the tokens line up with the columns. *)
Lemma for_each_names (s : Schema) (f : string → result string)
    (g : string * DataType → string) :
  (∀ col, col ∈ s → f col.1 = Ok (g col)) →
  for_each f (schema_names s) = Ok (g <$> s).
Proof.
  unfold schema_names. induction s as [|col s IH]; intros Hf; [done|].
  csimpl. rewrite Hf by left.
  rewrite IH; [done|]. intros c Hc. apply Hf. by right.
Qed.

Lemma for_each_zip_names (s : Schema) (values : list value)
    (f : string * value → result string)
    (g : string * DataType → value → string) :
  (∀ col v, col ∈ s → f (col.1, v) = Ok (g col v)) →
  for_each f (zip (schema_names s) values) = Ok (zip_with g s values).
Proof.
  unfold schema_names. revert values.
  induction s as [|col s IH]; intros values Hf; [done|].
  destruct values as [|v values]; [done|].
  csimpl. rewrite Hf by left.
  rewrite IH; [done|]. intros c w Hc. apply Hf. by right.
Qed.

(** ** Partition clauses *)

Lemma format_partition_dict (d : dict value) (partition_schema : Schema) :
  schema_wf partition_schema →
  _format_partition (PartitionDict d) partition_schema =
    Ok ("PARTITION (" +:+ join ", " (dict_token d <$> partition_schema) +:+ ")").
Proof.
  intros Hwf. unfold _format_partition.
  rewrite (for_each_names _ _ (dict_token d)); [done|].
  intros [name type] Hin. unfold dict_token. simpl.
  destruct (dict_get d name) as [v|]; [|done].
  by rewrite (schema_getitem_elem _ _ _ Hwf Hin).
Qed.

Lemma dict_token_Permutation (d d' : dict value) (col : string * DataType) :
  dict_wf d → d ≡ₚ d' → dict_token d' col = dict_token d col.
Proof.
  intros Hwf Hperm. unfold dict_token.
  by rewrite (dict_get_Permutation d d' _ Hwf Hperm).
Qed.

(** C4.  Under a mapping spec the PARTITION clause has one token per schema
    column, in the schema's declared order: [col=literal] for a column the
    mapping holds and the bare column name for a column it lacks.  The order
    in which the mapping was filled has no influence. *)
Theorem format_partition_dict_schema_order (d : dict value)
    (partition_schema : Schema) :
  schema_wf partition_schema →
  _format_partition (PartitionDict d) partition_schema =
    Ok ("PARTITION (" +:+ join ", " (dict_token d <$> partition_schema) +:+ ")")
  ∧ ∀ d' : dict value,
      dict_wf d → d ≡ₚ d' →
      _format_partition (PartitionDict d') partition_schema =
      _format_partition (PartitionDict d) partition_schema.
Proof.
  intros Hwf. split; [by apply format_partition_dict|].
  intros d' Hd Hperm. rewrite !format_partition_dict by done.
  f_equal. f_equal. f_equal. f_equal.
  apply list_fmap_ext. intros i col _.
  by apply dict_token_Permutation.
Qed.

(** The spec's end-to-end case: a mapping covering two of three columns. *)
Lemma format_partition_dict_schema_order_witness :
  _format_partition
    (PartitionDict [("day", VInt 7); ("year", VStr "2020")])
    [("year", String_); ("month", Int32); ("day", Int32)] =
    Ok ("PARTITION (year=" +:+ dquote +:+ "2020" +:+ dquote
        +:+ ", month, day=7)")
  ∧ ∀ d' : dict value,
      dict_wf [("day", VInt 7); ("year", VStr "2020")] →
      [("day", VInt 7); ("year", VStr "2020")] ≡ₚ d' →
      _format_partition (PartitionDict d')
        [("year", String_); ("month", Int32); ("day", Int32)] =
      _format_partition
        (PartitionDict [("day", VInt 7); ("year", VStr "2020")])
        [("year", String_); ("month", Int32); ("day", Int32)].
Proof.
  apply (format_partition_dict_schema_order
           [("day", VInt 7); ("year", VStr "2020")]
           [("year", String_); ("month", Int32); ("day", Int32)]).
  unfold schema_wf. apply (bool_decide_unpack _). vm_compute. exact I.
Defined.

(** C2, as the code has it.  A positional spec never makes the formatter
    fail: values and schema columns are paired in order up to the end of the
    shorter of the two, and the clause holds one [col=literal] token per
    pair (every column when the lengths agree). *)
Theorem format_partition_seq_pairs (values : list value)
    (partition_schema : Schema) :
  schema_wf partition_schema →
  ∃ tokens : list string,
    _format_partition (PartitionSeq values) partition_schema =
      Ok ("PARTITION (" +:+ join ", " tokens +:+ ")")
    ∧ length tokens = (length partition_schema `min` length values)%nat
    ∧ ∀ (i : nat) (name : string) (type : DataType) (v : value),
        partition_schema !! i = Some (name, type) →
        values !! i = Some v →
        tokens !! i = Some (_format_partition_kv name v type).
Proof.
  intros Hwf.
  exists (zip_with (fun col v => _format_partition_kv col.1 v col.2)
            partition_schema values).
  split_and!.
  - unfold _format_partition.
    rewrite (for_each_zip_names _ _ _
               (fun col v => _format_partition_kv col.1 v col.2)); [done|].
    intros [name type] v Hin. simpl.
    by rewrite (schema_getitem_elem _ _ _ Hwf Hin).
  - apply length_zip_with.
  - intros i name type v Hcol Hv.
    apply lookup_zip_with_Some. by exists (name, type), v.
Qed.

Lemma format_partition_seq_pairs_witness :
  ∃ tokens : list string,
    _format_partition (PartitionSeq [VInt 2020; VStr "us"])
      [("year", Int32); ("region", String_)] =
      Ok ("PARTITION (" +:+ join ", " tokens +:+ ")")
    ∧ length tokens = 2%nat
    ∧ ∀ (i : nat) (name : string) (type : DataType) (v : value),
        [("year", Int32); ("region", String_)] !! i = Some (name, type) →
        [VInt 2020; VStr "us"] !! i = Some v →
        tokens !! i = Some (_format_partition_kv name v type).
Proof.
  apply (format_partition_seq_pairs [VInt 2020; VStr "us"]
           [("year", Int32); ("region", String_)]).
  unfold schema_wf. apply (bool_decide_unpack _). vm_compute. exact I.
Defined.

(** A length mismatch raises nothing: the second schema column is dropped and
    a clause is returned. *)
Lemma format_partition_seq_length_mismatch :
  length [VInt 2020] ≠ length [("year", Int32); ("month", Int32)]
  ∧ _format_partition (PartitionSeq [VInt 2020])
      [("year", Int32); ("month", Int32)] = Ok "PARTITION (year=2020)".
Proof. split; [discriminate|reflexivity]. Qed.

(** ** CREATE TABLE from a Parquet example *)

Section CreateTableParquet_pieces.
Context {Base : Type}.
Variable _storage : Base → string.
Variable _location : Base → string.
Variable format_schema : Schema → string.

Local Abbreviation _pieces :=
  (CreateTableParquet._pieces _storage _location format_schema).

(** C5, as the code has it.  Building the pieces fails exactly when none of
    example file, example table and schema is given, and then
    [NotImplementedError] is raised before anything is yielded.  When one or
    more are given nothing fails: the example file is used if present,
    otherwise the example table, otherwise the schema, followed by the
    storage and location clauses. *)
Theorem create_table_parquet_pieces_source (self : CreateTableParquet.t Base) :
  (raised (_pieces self) = Some NotImplementedError ↔
     CreateTableParquet.example_file self = None
     ∧ CreateTableParquet.example_table self = None
     ∧ CreateTableParquet.schema self = None)
  ∧ (raised (_pieces self) ≠ None → yielded (_pieces self) = [])
  ∧ (∀ file, CreateTableParquet.example_file self = Some file →
       _pieces self =
         yields ["LIKE PARQUET '" +:+ file +:+ "'";
                 _storage (CreateTableParquet.base self);
                 _location (CreateTableParquet.base self)])
  ∧ (∀ tbl, CreateTableParquet.example_file self = None →
       CreateTableParquet.example_table self = Some tbl →
       _pieces self =
         yields ["LIKE " +:+ tbl;
                 _storage (CreateTableParquet.base self);
                 _location (CreateTableParquet.base self)])
  ∧ (∀ sch, CreateTableParquet.example_file self = None →
       CreateTableParquet.example_table self = None →
       CreateTableParquet.schema self = Some sch →
       _pieces self =
         yields [format_schema sch;
                 _storage (CreateTableParquet.base self);
                 _location (CreateTableParquet.base self)]).
Proof.
  destruct self as [b file tbl sch]. unfold CreateTableParquet._pieces. simpl.
  split_and!.
  - destruct file, tbl, sch; simpl; split; try done; intros (?&?&?); done.
  - destruct file, tbl, sch; simpl; done.
  - by intros f ->.
  - by intros t -> ->.
  - by intros s -> -> ->.
Qed.

End CreateTableParquet_pieces.

(** With both an example file and an example table, which is not exactly one
    source, the pieces are built from the example file and nothing is
    raised. *)
Lemma create_table_parquet_two_sources :
  CreateTableParquet.example_file
    (CreateTableParquet.Build tt (Some "/data/part0.parq") (Some "db.t") None)
    ≠ None
  ∧ CreateTableParquet.example_table
      (CreateTableParquet.Build tt (Some "/data/part0.parq") (Some "db.t") None)
    ≠ None
  ∧ CreateTableParquet._pieces
      (fun _ : unit => "STORED AS PARQUET") (fun _ => "LOCATION '/data'")
      (fun _ => "(`a` int)")
      (CreateTableParquet.Build tt (Some "/data/part0.parq") (Some "db.t") None)
    = yields ["LIKE PARQUET '/data/part0.parq'"; "STORED AS PARQUET";
              "LOCATION '/data'"].
Proof. split_and!; [discriminate..|reflexivity]. Qed.

Lemma create_table_parquet_pieces_source_witness :
  raised
    (CreateTableParquet._pieces
       (fun _ : unit => "STORED AS PARQUET") (fun _ => "LOCATION '/data'")
       (fun _ => "(`a` int)") (CreateTableParquet.Build tt None None None))
    = Some NotImplementedError
  ∧ yielded
      (CreateTableParquet._pieces
         (fun _ : unit => "STORED AS PARQUET") (fun _ => "LOCATION '/data'")
         (fun _ => "(`a` int)") (CreateTableParquet.Build tt None None None))
    = [].
Proof.
  pose proof (create_table_parquet_pieces_source
                (fun _ : unit => "STORED AS PARQUET")
                (fun _ => "LOCATION '/data'") (fun _ => "(`a` int)")
                (CreateTableParquet.Build tt None None None))
    as (Hraise & Hnone & _).
  split.
  - apply Hraise. repeat split.
  - apply Hnone. rewrite (proj2 Hraise); [discriminate|]. repeat split.
Defined.

(** ** Scoped names and RENAME *)

Example resolve_unscoped : _get_scoped_name "t" None = "t".
Proof. reflexivity. Qed.

Example resolve_scoped : _get_scoped_name "t" (Some "db") = "db.t".
Proof. reflexivity. Qed.

(** C6.  Resolving a name with a namespace gives [namespace.name] and without
    one gives the name unchanged; RenameTable qualifies its old and its new
    name separately, each only when its own database is given, and compiles
    to [ALTER TABLE <old> RENAME TO <new>]. *)
Theorem rename_table_scoped_names (name namespace old_name new_name : string)
    (old_database new_database : option string) :
  _get_scoped_name name (Some namespace) = namespace +:+ "." +:+ name
  ∧ _get_scoped_name name None = name
  ∧ RenameTable.compile
      (RenameTable.__init__ old_name new_name old_database new_database) =
    "ALTER TABLE "
    +:+ match old_database with
        | Some db => db +:+ "." +:+ old_name
        | None => old_name
        end
    +:+ " RENAME TO "
    +:+ match new_database with
        | Some db => db +:+ "." +:+ new_name
        | None => new_name
        end.
Proof.
  split_and!; [reflexivity..|].
  unfold RenameTable.compile, RenameTable.__init__, AlterTable._wrap_command.
  destruct old_database, new_database; reflexivity.
Qed.

(** ** Function statements *)

Section Functions.
Variable type_to_sql_string : DataType → string.

(** C7.  Dropping the aggregate function [f] of two integer inputs in database
    [db], with [must_exist] false, compiles to
    [DROP AGGREGATE FUNCTION IF EXISTS db.f(<int>, <int>)].  In general
    [AGGREGATE] follows [DROP] exactly when the aggregate flag is set and
    [IF EXISTS] follows [FUNCTION] exactly when [must_exist] is false. *)
Theorem drop_function_compile (int : DataType) (self : DropFunction.t) :
  DropFunction.compile type_to_sql_string
    (DropFunction.Build "f" [int; int] false true (Some "db")) =
    "DROP AGGREGATE FUNCTION IF EXISTS db.f("
    +:+ type_to_sql_string int +:+ ", " +:+ type_to_sql_string int +:+ ")"
  ∧ DropFunction.compile type_to_sql_string self =
    "DROP"
    +:+ (if DropFunction.aggregate self then " AGGREGATE" else "")
    +:+ " FUNCTION"
    +:+ (if DropFunction.must_exist self then "" else " IF EXISTS")
    +:+ " " +:+ DropFunction._impala_signature type_to_sql_string self.
Proof.
  split.
  - unfold DropFunction.compile, DropFunction.tokens,
      DropFunction._impala_signature, _impala_input_signature. simpl.
    by rewrite !append_assoc.
  - destruct self as [name inputs must_exist aggregate database].
    unfold DropFunction.compile, DropFunction.tokens.
    destruct must_exist, aggregate; reflexivity.
Qed.

(** C8.  CreateUDA emits, after the signature and the location, one line
    [fn='value'] for each phase whose symbol is configured and nothing for a
    phase without one, in the order init_fn, update_fn, merge_fn,
    serialize_fn, finalize_fn. *)
Theorem create_uda_phase_assignments (func : AggregateFunction)
    (name : string) (database : option string) :
  CreateUDA.compile type_to_sql_string (CreateUDA.Build func name database) =
    "CREATE AGGREGATE FUNCTION "
    +:+ CreateFunction._impala_signature type_to_sql_string name database
          (uda_inputs func) (uda_output func)
    +:+ " "
    +:+ join nl
          (["location '" +:+ uda_lib_path func +:+ "'"]
           ++ phase_assignment "init_fn" (init_fn func)
           ++ phase_assignment "update_fn" (update_fn func)
           ++ phase_assignment "merge_fn" (merge_fn func)
           ++ phase_assignment "serialize_fn" (serialize_fn func)
           ++ phase_assignment "finalize_fn" (finalize_fn func)).
Proof.
  destruct func as [fname inputs output lib i u m s f].
  unfold CreateUDA.compile, CreateUDA.fn_names. simpl.
  destruct i, u, m, s, f; reflexivity.
Qed.

End Functions.

(** ** ALTER TABLE without properties *)

(** C10.  An AlterTable built with no location, format, table properties or
    serde properties raises nothing, and compiling it returns
    [ALTER TABLE <table> SET ] with nothing after the final space. *)
Theorem alter_table_nothing_set
    (_sanitize_format : option string → result (option string))
    (table : string) :
  _sanitize_format None = Ok None →
  ∃ self : AlterTable.t,
    AlterTable.__init__ _sanitize_format table None None None None = Ok self
    ∧ AlterTable.compile self = "ALTER TABLE " +:+ table +:+ " SET ".
Proof.
  intros Hnone. exists (AlterTable.Build table None None None None). split.
  - unfold AlterTable.__init__. by rewrite Hnone.
  - unfold AlterTable.compile, AlterTable._format_properties,
      AlterTable._wrap_command. simpl.
    by rewrite append_nil_r.
Qed.

Lemma alter_table_nothing_set_witness :
  ∃ self : AlterTable.t,
    AlterTable.__init__ (fun format => Ok format) "db.t" None None None None
      = Ok self
    ∧ AlterTable.compile self = "ALTER TABLE db.t SET ".
Proof.
  apply (alter_table_nothing_set (fun format => Ok format) "db.t").
  reflexivity.
Defined.

(** ** Determinism *)

Lemma encode_JList (level : nat) (l : list Json.t) :
  Json.encode level (Json.JList l) =
    match l with
    | [] => "[]"
    | _ =>
        "[" +:+ Json.newline_indent (S level)
        +:+ join ("," +:+ Json.newline_indent (S level))
              (Json.encode (S level) <$> l)
        +:+ Json.newline_indent level +:+ "]"
    end.
Proof. by destruct l. Qed.

Lemma encode_JDict (level : nat) (items : dict Json.t) :
  Json.encode level (Json.JDict items) =
    match items with
    | [] => "{}"
    | _ =>
        "{" +:+ Json.newline_indent (S level)
        +:+ join ("," +:+ Json.newline_indent (S level))
              (Json.dict_entry <$>
                 sorted_items
                   ((fun kv => (kv.1, Json.encode (S level) kv.2)) <$> items))
        +:+ Json.newline_indent level +:+ "}"
    end.
Proof. by destruct items. Qed.

(** Equal JSON values have the same encoding at every depth. *)
Lemma encode_same_json (j1 j2 : Json.t) :
  same_json j1 j2 → ∀ level, Json.encode level j1 = Json.encode level j2.
Proof.
  induction 1 as [| | | |l1 l2 Hl|d1 d1' d2 Hperm Hd] using same_json_ind;
    intros level; try reflexivity.
  - rewrite !encode_JList.
    assert (Json.encode (S level) <$> l1 = Json.encode (S level) <$> l2)
      as Henc.
    { induction Hl as [|x y l1 l2 Hxy Hl IH]; [done|].
      rewrite !fmap_cons. by rewrite Hxy, IH. }
    destruct Hl; [done|]. by rewrite Henc.
  - rewrite !encode_JDict.
    assert ((fun kv => (kv.1, Json.encode (S level) kv.2)) <$> d1' =
            (fun kv => (kv.1, Json.encode (S level) kv.2)) <$> d2)
      as Henc.
    { clear Hperm. induction Hd as [|x y l1 l2 [Hk Hv] Hd IH]; [done|].
      rewrite !fmap_cons. by rewrite Hk, Hv, IH. }
    rewrite (sorted_items_proper _ _
               (fmap_Permutation
                  (fun kv => (kv.1, Json.encode (S level) kv.2)) _ _ Hperm)).
    rewrite Henc.
    destruct Hd as [|x y l1 l2 Hxy Hd].
    + by apply Permutation_nil_r in Hperm as ->.
    + destruct d1 as [|z d1]; [|done].
      by apply Permutation_nil_cons in Hperm.
Qed.

Lemma avro_to_ddl_same_json (path : string) (j1 j2 : Json.t) :
  same_json j1 j2 →
  AvroFormat.to_ddl (AvroFormat.Build path j1) =
  AvroFormat.to_ddl (AvroFormat.Build path j2).
Proof.
  intros Hsame. unfold AvroFormat.to_ddl, Json.dumps. simpl.
  by rewrite (encode_same_json j1 j2 Hsame).
Qed.

Lemma format_properties_Permutation (props1 props2 : dict string) :
  props1 ≡ₚ props2 → _format_properties props1 = _format_properties props2.
Proof.
  intros Hperm. unfold _format_properties.
  by rewrite (sorted_items_proper props1 props2).
Qed.

Lemma alter_table_format_properties_same (a1 a2 : AlterTable.t)
    (prefix : string) :
  same_alter_table a1 a2 →
  AlterTable._format_properties a1 prefix =
  AlterTable._format_properties a2 prefix.
Proof.
  intros [table location format tbl1 tbl2 serde1 serde2 Htbl Hserde].
  unfold AlterTable._format_properties. simpl.
  assert (when_set tbl1 format_tblproperties
          = when_set tbl2 format_tblproperties) as ->.
  { destruct Htbl as [p1 p2 Hperm|]; [|done]. simpl.
    unfold format_tblproperties.
    by rewrite (format_properties_Permutation p1 p2). }
  assert (when_set serde1 _serdeproperties
          = when_set serde2 _serdeproperties) as ->.
  { destruct Hserde as [p1 p2 Hperm|]; [|done]. simpl.
    unfold _serdeproperties.
    by rewrite (format_properties_Permutation p1 p2). }
  done.
Qed.

Lemma for_each_ext {A B} (f g : A → result B) (l : list A) :
  (∀ x, f x = g x) → for_each f l = for_each g l.
Proof.
  intros Hfg. induction l as [|x l IH]; [done|].
  simpl. by rewrite Hfg, IH.
Qed.

Lemma format_partition_same (p1 p2 : PartitionSpec) (schema : Schema) :
  same_partition p1 p2 →
  _format_partition p1 schema = _format_partition p2 schema.
Proof.
  intros [d1 d2 Hwf Hperm|values]; [|done].
  unfold _format_partition. f_equal.
  apply for_each_ext. intros name.
  by rewrite (dict_get_Permutation d1 d2 name Hwf Hperm).
Qed.

Lemma partition_properties_compile_same (s1 s2 : PartitionProperties.t)
    (cmd property_prefix : string) :
  same_partition_properties s1 s2 →
  PartitionProperties._compile s1 cmd property_prefix =
  PartitionProperties._compile s2 cmd property_prefix.
Proof.
  intros [a1 a2 p1 p2 schema Ha Hp]. unfold PartitionProperties._compile.
  simpl. rewrite (format_partition_same p1 p2 schema Hp).
  rewrite (alter_table_format_properties_same a1 a2 property_prefix Ha).
  by destruct Ha.
Qed.

Section Determinism.
Context {Base : Type}.
Variable type_to_sql_string : DataType → string.
Variable _storage : Base → string.
Variable _location : Base → string.
Variable format_schema : Schema → string.

Local Abbreviation emit :=
  (emitted type_to_sql_string _storage _location format_schema).

(** C9.  What a statement object emits is a function of the inputs it was
    built from: compiling the same object twice, or two objects whose inputs
    are equal (dicts compared as Python compares them, by content), gives the
    same text character for character. *)
Theorem compile_deterministic (s1 s2 : @Statement Base) :
  same_inputs s1 s2 → emit s1 = emit s2.
Proof.
  intros [s
         |path j1 j2 Hj
         |path j1 j2 Hj
         |table_name select database p1 p2 schema overwrite Hp
         |table_name path database p1 p2 schema overwrite Hp
         |a1 a2 Ha
         |q1 q2 Hq
         |q1 q2 Hq
         |q1 q2 Hq]; unfold emitted.
  - reflexivity.
  - by rewrite (avro_to_ddl_same_json path j1 j2 Hj).
  - unfold CreateTableAvro._pieces, CreateTableAvro.table_format.
    by rewrite (avro_to_ddl_same_json path j1 j2 Hj).
  - unfold InsertSelect.compile. simpl.
    destruct Hp as [p1 p2 Hp|]; [|done].
    by rewrite (format_partition_same p1 p2 schema Hp).
  - unfold LoadData.compile. simpl.
    destruct Hp as [p1 p2 Hp|]; [|done].
    by rewrite (format_partition_same p1 p2 schema Hp).
  - unfold AlterTable.compile.
    rewrite (alter_table_format_properties_same a1 a2 "" Ha).
    by destruct Ha.
  - unfold AddPartition.compile.
    by rewrite (partition_properties_compile_same q1 q2 _ _ Hq).
  - unfold AlterPartition.compile.
    by rewrite (partition_properties_compile_same q1 q2 _ _ Hq).
  - unfold DropPartition.compile.
    by rewrite (partition_properties_compile_same q1 q2 _ _ Hq).
Qed.

End Determinism.

(** Two ALTER TABLE objects whose property dicts were filled in opposite
    orders. *)
Lemma compile_deterministic_witness :
  emitted (Base := unit) (fun _ => "int") (fun _ => "") (fun _ => "")
    (fun _ => "")
    (StmtAlterTable
       (AlterTable.Build "t" None None
          (Some [("owner", "etl"); ("comment", "daily")]) None)) =
  emitted (Base := unit) (fun _ => "int") (fun _ => "") (fun _ => "")
    (fun _ => "")
    (StmtAlterTable
       (AlterTable.Build "t" None None
          (Some [("comment", "daily"); ("owner", "etl")]) None)).
Proof.
  apply (compile_deterministic (Base := unit)).
  apply same_AlterTable. constructor.
  - constructor. apply perm_swap.
  - constructor.
Defined.

(** ** Sample statements *)

Example add_partition_mapping :
  AddPartition.compile
    (PartitionProperties.Build
       (AlterTable.Build "tbl" None None None None)
       (PartitionDict [("month", VInt 4); ("year", VInt 2007)])
       [("year", Int32); ("month", Int32); ("day", Int32)]) =
  Ok "ALTER TABLE tbl ADD PARTITION (year=2007, month=4, day)".
Proof. reflexivity. Qed.

Example add_partition_string_key :
  AddPartition.compile
    (PartitionProperties.Build
       (AlterTable.Build "tbl" (Some "/users/foo/my-data") None None None)
       (PartitionSeq [VInt 5; VStr "qux"])
       [("foo", Int32); ("bar", String_)]) =
  Ok ("ALTER TABLE tbl ADD PARTITION (foo=5, bar=" +:+ dquote +:+ "qux"
      +:+ dquote +:+ ")" +:+ nl +:+ "LOCATION '/users/foo/my-data'").
Proof. reflexivity. Qed.

Example alter_partition_location :
  AlterPartition.compile
    (PartitionProperties.Build
       (AlterTable.Build "tbl" (Some "/new") (Some "AVRO") None None)
       (PartitionSeq [VInt 2007; VInt 4])
       [("year", Int32); ("month", Int32)]) =
  Ok ("ALTER TABLE tbl PARTITION (year=2007, month=4)" +:+ nl
      +:+ "SET LOCATION '/new'" +:+ nl +:+ "FILEFORMAT AVRO").
Proof. reflexivity. Qed.

Example alter_table_properties :
  AlterTable.compile
    (AlterTable.Build "tbl" None None (Some [("foo", "1"); ("bar", "2")])
       (Some [("baz", "3")])) =
  "ALTER TABLE tbl SET " +:+ nl
  +:+ "TBLPROPERTIES (" +:+ nl
  +:+ "  'bar'='2'," +:+ nl
  +:+ "  'foo'='1'" +:+ nl
  +:+ ")" +:+ nl
  +:+ "SERDEPROPERTIES (" +:+ nl
  +:+ "  'baz'='3'" +:+ nl
  +:+ ")".
Proof. reflexivity. Qed.

Example insert_overwrite_partition :
  InsertSelect.compile
    (InsertSelect.Build "t" "SELECT * FROM s" (Some "db")
       (Some (PartitionSeq [VInt 2007])) [("year", Int32)] true) =
  Ok ("INSERT OVERWRITE db.t PARTITION (year=2007) " +:+ nl
      +:+ "SELECT * FROM s").
Proof. reflexivity. Qed.

Example load_data_partition :
  LoadData.compile
    (LoadData.Build "t" "/incoming" None
       (Some (PartitionDict [("year", VInt 2007)])) [("year", Int32)] false) =
  Ok ("LOAD DATA INPATH '/incoming' INTO TABLE t" +:+ nl
      +:+ "PARTITION (year=2007)").
Proof. reflexivity. Qed.

Example delimited_format_clauses :
  DelimitedFormat.to_ddl
    (CreateTableDelimited.table_format "/data" (Some ",") None None
       (Some "NULL")) =
  ["ROW FORMAT DELIMITED";
   "FIELDS TERMINATED BY ','";
   "LOCATION '/data'";
   "TBLPROPERTIES (" +:+ nl
   +:+ "  'serialization.null.format'='NULL'" +:+ nl +:+ ")"].
Proof. reflexivity. Qed.

Example avro_schema_literal :
  AvroFormat.to_ddl
    (AvroFormat.Build "/avro"
       (Json.JDict
          [("type", Json.JStr "record");
           ("fields", Json.JList [Json.JDict [("name", Json.JStr "a")]])])) =
  ["STORED AS AVRO";
   "LOCATION '/avro'";
   "TBLPROPERTIES (" +:+ nl
   +:+ "  'avro.schema.literal'='{" +:+ nl
   +:+ "  " +:+ dquote +:+ "fields" +:+ dquote +:+ ": [" +:+ nl
   +:+ "    {" +:+ nl
   +:+ "      " +:+ dquote +:+ "name" +:+ dquote +:+ ": "
   +:+ dquote +:+ "a" +:+ dquote +:+ nl
   +:+ "    }" +:+ nl
   +:+ "  ]," +:+ nl
   +:+ "  " +:+ dquote +:+ "type" +:+ dquote +:+ ": "
   +:+ dquote +:+ "record" +:+ dquote +:+ nl
   +:+ "}'" +:+ nl +:+ ")"].
Proof. reflexivity. Qed.

Example create_udf_text :
  CreateUDF.compile (fun _ => "int")
    (CreateUDF.__init__
       {| udf_name := "identity"; udf_inputs := [Int32; Int32];
          udf_output := Int32; udf_lib_path := "/lib/udf.so";
          so_symbol := "Identity" |}
       None (Some "db")) =
  "CREATE FUNCTION db.identity(int, int) returns int "
  +:+ "location '/lib/udf.so' symbol='Identity'".
Proof. reflexivity. Qed.

Example create_uda_text :
  CreateUDA.compile (fun _ => "int")
    (CreateUDA.__init__
       {| uda_name := "total"; uda_inputs := [Int32]; uda_output := Int32;
          uda_lib_path := "/lib/uda.so"; init_fn := Some "Init";
          update_fn := Some "Update"; merge_fn := Some "Merge";
          serialize_fn := None; finalize_fn := Some "Finalize" |}
       (Some "sum2") None) =
  "CREATE AGGREGATE FUNCTION sum2(int) returns int location '/lib/uda.so'"
  +:+ nl +:+ "init_fn='Init'"
  +:+ nl +:+ "update_fn='Update'"
  +:+ nl +:+ "merge_fn='Merge'"
  +:+ nl +:+ "finalize_fn='Finalize'".
Proof. reflexivity. Qed.

Example list_aggregate_functions :
  ListFunction.compile (ListFunction.Build "db" (Some "sum*") true) =
  "SHOW AGGREGATE FUNCTIONS IN db LIKE 'sum*'".
Proof. reflexivity. Qed.

Example cache_table_pool :
  CacheTable.compile (CacheTable.Build "t" (Some "db") "default") =
  "ALTER TABLE db.t SET CACHED IN 'default'".
Proof. reflexivity. Qed.

(** * Further properties of the module *)

(** ** Partition clauses: errors and ignored input *)

Lemma dict_get_is_Some {V} (d : dict V) (k : string) :
  k ∈ d.*1 → is_Some (dict_get d k).
Proof.
  induction d as [|[k' v] d IH]; simpl; intros Hin.
  - by apply elem_of_nil in Hin.
  - destruct (decide (k' = k)) as [->|Hne]; [by eexists|].
    apply IH. apply elem_of_cons in Hin as [Heq|Hin]; [|done].
    by destruct Hne.
Qed.

Lemma for_each_ext_elem {A B} (f g : A → result B) (l : list A) :
  (∀ x, x ∈ l → f x = g x) → for_each f l = for_each g l.
Proof.
  induction l as [|x l IH]; intros Hfg; [done|].
  simpl. rewrite (Hfg x) by left.
  rewrite IH; [done|]. intros y Hy. apply Hfg. by right.
Qed.

Lemma for_each_Ok {A B} (f : A → result B) (l : list A) :
  (∀ x, x ∈ l → ∃ y, f x = Ok y) → ∃ ys, for_each f l = Ok ys.
Proof.
  induction l as [|x l IH]; intros Hf; [by eexists|].
  destruct (Hf x) as [y Hy]; [by left|].
  destruct IH as [ys Hys]; [intros z Hz; apply Hf; by right|].
  exists (y :: ys). simpl. by rewrite Hy, Hys.
Qed.

Lemma elem_of_zip_l {A B} (a : list A) (b : list B) (x : A) (y : B) :
  (x, y) ∈ zip a b → x ∈ a.
Proof.
  revert b. induction a as [|x' a IH]; intros [|y' b] Hin;
    try by apply elem_of_nil in Hin.
  simpl in Hin. apply elem_of_cons in Hin as [Heq|Hin].
  - injection Heq as -> ->. by left.
  - right. by apply (IH b).
Qed.

Lemma schema_getitem_Ok (s : Schema) (name : string) :
  name ∈ schema_names s → ∃ type, schema_getitem s name = Ok type.
Proof.
  intros Hin. unfold schema_getitem.
  destruct (dict_get_is_Some s name Hin) as [type ->]. by eexists.
Qed.

Lemma format_partition_Ok (partition : PartitionSpec) (schema : Schema) :
  ∃ clause, _format_partition partition schema = Ok clause.
Proof.
  unfold _format_partition. destruct partition as [d|values].
  - destruct (for_each_Ok
      (fun name =>
         match dict_get d name with
         | Some v =>
             type ← schema_getitem schema name;
             mret (_format_partition_kv name v type)
         | None => mret name
         end) (schema_names schema)) as [tokens ->]; [|by eexists].
    intros name Hin. destruct (dict_get d name) as [v|]; [|by eexists].
    destruct (schema_getitem_Ok schema name Hin) as [type ->]. by eexists.
  - destruct (for_each_Ok
      (fun '(name, v) =>
         type ← schema_getitem schema name;
         mret (_format_partition_kv name v type))
      (zip (schema_names schema) values)) as [tokens ->]; [|by eexists].
    intros [name v] Hin. apply elem_of_zip_l in Hin.
    destruct (schema_getitem_Ok schema name Hin) as [type ->]. by eexists.
Qed.

Lemma for_each_length {A B} (f : A → result B) (l : list A)
    (ys : list B) :
  for_each f l = Ok ys → length ys = length l.
Proof.
  revert ys. induction l as [|x l IH]; intros ys; simpl.
  - by intros [= <-].
  - destruct (f x) as [y|e]; [|done].
    destruct (for_each f l) as [ys'|e]; [|done].
    intros [= <-]. simpl. by rewrite (IH ys').
Qed.

Lemma length_zip {A B} (a : list A) (b : list B) :
  length (zip a b) = (length a `min` length b)%nat.
Proof.
  revert b. induction a as [|x a IH]; intros [|y b]; simpl; [done..|].
  by rewrite IH.
Qed.

(** X1.  Formatting a partition spec never raises, whatever the spec and the
    schema, even one that repeats a column name: the only lookup that could
    fail, [partition_schema[name]], is made with names that come from the
    schema itself.  The clause holds one token per schema column under a
    mapping spec and one per (column, value) pair under a positional one. *)
Theorem format_partition_never_raises (partition : PartitionSpec)
    (partition_schema : Schema) :
  ∃ tokens : list string,
    _format_partition partition partition_schema =
      Ok ("PARTITION (" +:+ join ", " tokens +:+ ")")
    ∧ length tokens =
        match partition with
        | PartitionDict _ => length partition_schema
        | PartitionSeq values =>
            (length partition_schema `min` length values)%nat
        end.
Proof.
  unfold _format_partition. destruct partition as [d|values].
  - destruct (for_each_Ok
      (fun name =>
         match dict_get d name with
         | Some v =>
             type ← schema_getitem partition_schema name;
             mret (_format_partition_kv name v type)
         | None => mret name
         end) (schema_names partition_schema)) as [tokens Htokens].
    { intros name Hin. destruct (dict_get d name) as [v|]; [|by eexists].
      destruct (schema_getitem_Ok partition_schema name Hin) as [type ->].
      by eexists. }
    exists tokens. rewrite Htokens. split; [done|].
    rewrite (for_each_length _ _ _ Htokens).
    unfold schema_names. by rewrite length_fmap.
  - destruct (for_each_Ok
      (fun '(name, v) =>
         type ← schema_getitem partition_schema name;
         mret (_format_partition_kv name v type))
      (zip (schema_names partition_schema) values)) as [tokens Htokens].
    { intros [name v] Hin. apply elem_of_zip_l in Hin.
      destruct (schema_getitem_Ok partition_schema name Hin) as [type ->].
      by eexists. }
    exists tokens. rewrite Htokens. split; [done|].
    rewrite (for_each_length _ _ _ Htokens), length_zip.
    unfold schema_names. by rewrite length_fmap.
Qed.

(** X3.  Under a mapping spec only the entries for schema columns are read:
    two mappings that agree on every schema column give the same clause, so
    an entry for a name that is no partition column is dropped silently. *)
Theorem format_partition_dict_reads_schema_columns (d1 d2 : dict value)
    (partition_schema : Schema) :
  (∀ name, name ∈ schema_names partition_schema →
     dict_get d1 name = dict_get d2 name) →
  _format_partition (PartitionDict d1) partition_schema =
  _format_partition (PartitionDict d2) partition_schema.
Proof.
  intros Hagree. unfold _format_partition. f_equal.
  apply for_each_ext_elem. intros name Hin. by rewrite (Hagree name Hin).
Qed.

Lemma format_partition_dict_reads_schema_columns_witness :
  _format_partition
    (PartitionDict [("year", VInt 2007)]) [("year", Int32); ("month", Int32)] =
  _format_partition
    (PartitionDict [("country", VStr "nl"); ("year", VInt 2007)])
    [("year", Int32); ("month", Int32)].
Proof.
  apply (format_partition_dict_reads_schema_columns
           [("year", VInt 2007)]
           [("country", VStr "nl"); ("year", VInt 2007)]
           [("year", Int32); ("month", Int32)]).
  intros name Hin. simpl in Hin.
  apply elem_of_cons in Hin as [->|Hin]; [reflexivity|].
  apply elem_of_cons in Hin as [->|Hin]; [reflexivity|].
  by apply elem_of_nil in Hin.
Defined.

Lemma format_partition_seq (values : list value) (schema : Schema) :
  schema_wf schema →
  _format_partition (PartitionSeq values) schema =
    Ok ("PARTITION ("
        +:+ join ", "
              (zip_with (fun col v => _format_partition_kv col.1 v col.2)
                 schema values)
        +:+ ")").
Proof.
  intros Hwf. unfold _format_partition.
  rewrite (for_each_zip_names _ _ _
             (fun col v => _format_partition_kv col.1 v col.2)); [done|].
  intros [name type] v Hin. simpl.
  by rewrite (schema_getitem_elem _ _ _ Hwf Hin).
Qed.

Lemma dict_token_zip (s : Schema) (values : list value) :
  schema_wf s → (length s ≤ length values)%nat →
  dict_token (zip (schema_names s) values) <$> s =
  zip_with (fun col v => _format_partition_kv col.1 v col.2) s values.
Proof.
  unfold schema_wf, schema_names. revert values.
  induction s as [|[name type] s IH]; intros values Hwf Hlen; [done|].
  destruct values as [|v values]; [simpl in Hlen; lia|].
  apply NoDup_cons in Hwf as [Hnotin Hwf]. simpl in Hlen.
  csimpl. f_equal.
  - unfold dict_token. simpl. by rewrite decide_True.
  - rewrite <-(IH values) by (done || lia).
    apply list_fmap_ext. intros i col Hcol.
    unfold dict_token. simpl. rewrite decide_False; [done|].
    intros ->. apply Hnotin, list_elem_of_fmap. exists col.
    split; [done|]. by eapply list_elem_of_lookup_2.
Qed.

(** X4.  A positional spec and the mapping that pairs the schema's column
    names with the same values are interchangeable: when there is a value for
    every schema column, both give the same clause. *)
Theorem format_partition_seq_as_dict (values : list value)
    (partition_schema : Schema) :
  schema_wf partition_schema →
  (length partition_schema ≤ length values)%nat →
  _format_partition
    (PartitionDict (zip (schema_names partition_schema) values))
    partition_schema =
  _format_partition (PartitionSeq values) partition_schema.
Proof.
  intros Hwf Hlen.
  rewrite format_partition_dict, format_partition_seq by done.
  by rewrite dict_token_zip.
Qed.

Lemma format_partition_seq_as_dict_witness :
  _format_partition
    (PartitionDict [("year", VInt 2007); ("region", VStr "eu")])
    [("year", Int32); ("region", String_)] =
  _format_partition (PartitionSeq [VInt 2007; VStr "eu"])
    [("year", Int32); ("region", String_)].
Proof.
  apply (format_partition_seq_as_dict [VInt 2007; VStr "eu"]
           [("year", Int32); ("region", String_)]).
  - unfold schema_wf. apply (bool_decide_unpack _). vm_compute. exact I.
  - simpl. lia.
Defined.

(** ** Property clauses of ALTER TABLE *)

Lemma nl_append_ne_empty (s : string) : nl +:+ s ≠ "".
Proof. discriminate. Qed.

(** X5.  The property text of an AlterTable is empty exactly when none of
    location, format, table properties and serde properties is set; as soon
    as one is set the text opens a new line, whatever the prefix. *)
Theorem alter_table_format_properties_empty_iff (self : AlterTable.t)
    (prefix : string) :
  AlterTable._format_properties self prefix = ""
  ↔ AlterTable.location self = None
    ∧ AlterTable.format self = None
    ∧ AlterTable.tbl_properties self = None
    ∧ AlterTable.serde_properties self = None.
Proof.
  destruct self as [table location format tbl serde].
  unfold AlterTable._format_properties. simpl. split.
  - destruct location, format, tbl, serde; simpl; try done;
      intros H; by apply nl_append_ne_empty in H.
  - by intros (-> & -> & -> & ->).
Qed.

(** ** Partition statements as their constructors build them *)

Section Constructed.
Variable _sanitize_format : option string → result (option string).
Hypothesis sanitize_None : _sanitize_format None = Ok None.

Lemma partition_properties_init_plain (table : string)
    (partition : PartitionSpec) (schema : Schema) (location : option string) :
  PartitionProperties.__init__ _sanitize_format table partition schema
    location None None None =
  Ok (PartitionProperties.Build
        (AlterTable.Build table location None None None) partition schema).
Proof.
  unfold PartitionProperties.__init__, AlterTable.__init__.
  by rewrite sanitize_None.
Qed.

(** X6.  A DropPartition built by its constructor carries no property at all:
    it compiles, without error, to [ALTER TABLE <table> DROP] followed by the
    partition clause and nothing else. *)
Theorem drop_partition_constructed (table : string)
    (partition : PartitionSpec) (partition_schema : Schema) :
  ∃ (self : PartitionProperties.t) (clause : string),
    DropPartition.__init__ _sanitize_format table partition partition_schema
      = Ok self
    ∧ _format_partition partition partition_schema = Ok clause
    ∧ DropPartition.compile self =
        Ok ("ALTER TABLE " +:+ table +:+ " DROP " +:+ clause).
Proof.
  destruct (format_partition_Ok partition partition_schema) as [clause Hc].
  eexists _, clause. split_and!; [apply partition_properties_init_plain|done|].
  unfold DropPartition.compile, PartitionProperties._compile. simpl.
  rewrite Hc. simpl. unfold AlterTable._wrap_command.
  by rewrite !append_assoc, append_nil_r.
Qed.

(** X7.  An AddPartition built by its constructor can carry a location and
    nothing else: it compiles, without error, to [ALTER TABLE <table> ADD],
    the partition clause and, only when a location was given, a LOCATION
    clause on a line of its own. *)
Theorem add_partition_constructed (table : string)
    (partition : PartitionSpec) (partition_schema : Schema)
    (location : option string) :
  ∃ (self : PartitionProperties.t) (clause : string),
    AddPartition.__init__ _sanitize_format table partition partition_schema
      location = Ok self
    ∧ _format_partition partition partition_schema = Ok clause
    ∧ AddPartition.compile self =
        Ok ("ALTER TABLE " +:+ table +:+ " ADD " +:+ clause
            +:+ match location with
                | Some l => nl +:+ "LOCATION '" +:+ l +:+ "'"
                | None => ""
                end).
Proof.
  destruct (format_partition_Ok partition partition_schema) as [clause Hc].
  eexists _, clause. split_and!; [apply partition_properties_init_plain|done|].
  unfold AddPartition.compile, PartitionProperties._compile. simpl.
  rewrite Hc. simpl. unfold AlterTable._wrap_command.
  destruct location as [l|]; simpl; unfold AlterTable._format_properties;
    simpl; by rewrite !append_assoc.
Qed.

End Constructed.

Lemma drop_partition_constructed_witness :
  ∃ (self : PartitionProperties.t) (clause : string),
    DropPartition.__init__ (fun format => Ok format) "tbl"
      (PartitionSeq [VInt 2007]) [("year", Int32)] = Ok self
    ∧ _format_partition (PartitionSeq [VInt 2007]) [("year", Int32)]
      = Ok clause
    ∧ DropPartition.compile self =
        Ok ("ALTER TABLE " +:+ "tbl" +:+ " DROP " +:+ clause).
Proof.
  apply (drop_partition_constructed (fun format => Ok format)).
  reflexivity.
Defined.

Lemma add_partition_constructed_witness :
  ∃ (self : PartitionProperties.t) (clause : string),
    AddPartition.__init__ (fun format => Ok format) "tbl"
      (PartitionSeq [VInt 2007]) [("year", Int32)] (Some "/data/2007")
      = Ok self
    ∧ _format_partition (PartitionSeq [VInt 2007]) [("year", Int32)]
      = Ok clause
    ∧ AddPartition.compile self =
        Ok ("ALTER TABLE " +:+ "tbl" +:+ " ADD " +:+ clause
            +:+ nl +:+ "LOCATION '" +:+ "/data/2007" +:+ "'").
Proof.
  apply (add_partition_constructed (fun format => Ok format) eq_refl "tbl"
           (PartitionSeq [VInt 2007]) [("year", Int32)] (Some "/data/2007")).
Defined.

(** ** The one failure of the module *)

Section Failures.
Context {Base : Type}.
Variable type_to_sql_string : DataType → string.
Variable _storage : Base → string.
Variable _location : Base → string.
Variable format_schema : Schema → string.


End Failures.

(** ** SHOW FUNCTIONS *)

(** X8.  ListFunction adds a LIKE clause only for a pattern that is neither
    absent nor the empty string; AGGREGATE is inserted exactly when the flag
    is set. *)
Theorem list_function_like_clause (database : string) (like : option string)
    (aggregate : bool) :
  ListFunction.compile (ListFunction.Build database like aggregate) =
    "SHOW "
    +:+ (if aggregate then "AGGREGATE " else "")
    +:+ "FUNCTIONS IN " +:+ database
    +:+ match like with
        | Some (String c pattern) => " LIKE '" +:+ String c pattern +:+ "'"
        | _ => ""
        end.
Proof.
  unfold ListFunction.compile. simpl.
  destruct like as [[|c pattern]|], aggregate; simpl;
    by rewrite ?append_assoc, ?append_nil_r.
Qed.

(** ** Delimited text tables *)

(** X9.  The clauses of a delimited format end with the location when no null
    representation is configured; with one, a last clause follows that holds
    the single table property [serialization.null.format], its value copied
    between single quotes. *)
Theorem delimited_format_last_clause (self : DelimitedFormat.t) :
  last (DelimitedFormat.to_ddl self) =
    Some match DelimitedFormat.na_rep self with
         | Some na =>
             "TBLPROPERTIES (" +:+ nl
             +:+ "  'serialization.null.format'='" +:+ na +:+ "'" +:+ nl
             +:+ ")"
         | None => "LOCATION '" +:+ DelimitedFormat.path self +:+ "'"
         end.
Proof.
  destruct self as [path delimiter escapechar lineterminator na_rep].
  assert (∀ na : string,
    format_tblproperties [("serialization.null.format", na)] =
    "TBLPROPERTIES (" +:+ nl
    +:+ "  'serialization.null.format'='" +:+ na +:+ "'" +:+ nl +:+ ")")
    as Hblock.
  { intros na. unfold format_tblproperties, _format_properties.
    change (sorted_items [("serialization.null.format", na)])
      with [("serialization.null.format", na)].
    unfold property_token. simpl. by rewrite !append_assoc. }
  unfold DelimitedFormat.to_ddl. simpl.
  destruct delimiter, escapechar, lineterminator, na_rep; simpl;
    by rewrite ?Hblock.
Qed.

(** ** Function signatures *)

(** X12.  CREATE and DROP agree on how a function is named: the signature a
    CreateUDF or CreateUDA emits is the signature DropFunction emits for the
    same name, database and input types, followed by [ returns <type>]. *)
Theorem create_signature_extends_drop_signature
    (type_to_sql_string : DataType → string) (name : string)
    (database : option string) (inputs : list DataType) (output : DataType)
    (must_exist aggregate : bool) :
  CreateFunction._impala_signature type_to_sql_string name database inputs
    output =
  DropFunction._impala_signature type_to_sql_string
    (DropFunction.Build name inputs must_exist aggregate database)
  +:+ " returns " +:+ type_to_sql_string output.
Proof.
  unfold CreateFunction._impala_signature, DropFunction._impala_signature.
  simpl. by rewrite !append_assoc.
Qed.

(** ** The Avro schema literal *)

Lemma append_cons (c : ascii) (s t : string) :
  String c s +:+ t = String c (s +:+ t).
Proof. reflexivity. Qed.

Lemma append_ne_empty (p l : string) : l ≠ "" → p +:+ l ≠ "".
Proof. destruct p; [done|]. by rewrite append_cons. Qed.

Lemma string_forall_app (p : ascii → bool) (a b : string) :
  string_forall p (a +:+ b) = string_forall p a && string_forall p b.
Proof.
  induction a as [|c a IH]; [done|].
  rewrite append_cons. simpl. by rewrite IH, andb_assoc.
Qed.

Lemma string_forall_impl (p q : ascii → bool) (s : string) :
  (∀ c, p c = true → q c = true) →
  string_forall p s = true → string_forall q s = true.
Proof.
  intros Hpq. induction s as [|c s IH]; [done|]. simpl.
  intros [Hc Hs]%andb_true_iff. by rewrite (Hpq c Hc), IH.
Qed.

Lemma rstrip_app (p l : string) :
  Json.rstrip l = l → l ≠ "" → Json.rstrip (p +:+ l) = p +:+ l.
Proof.
  intros Hl Hne. induction p as [|c p IH]; [done|].
  rewrite append_cons. simpl. rewrite IH.
  pose proof (append_ne_empty p l Hne) as Hpl.
  by destruct (p +:+ l).
Qed.

Lemma line_ok_prefix (p l : string) :
  string_forall printable p = true → line_ok l → line_ok (p +:+ l).
Proof.
  intros Hp (Hl & Hstrip & Hne). split_and!.
  - by rewrite string_forall_app, Hp, Hl.
  - by apply rstrip_app.
  - by apply append_ne_empty.
Qed.

Lemma line_ok_suffix (l q : string) :
  string_forall printable l = true → line_ok q → line_ok (l +:+ q).
Proof. apply line_ok_prefix. Qed.

Lemma visible_printable (c : ascii) : visible c = true → printable c = true.
Proof.
  unfold visible, printable. rewrite !bool_decide_eq_true. lia.
Qed.

Lemma visible_not_space (c : ascii) : visible c = true → Json.is_space c = false.
Proof.
  unfold visible, Json.is_space. rewrite bool_decide_eq_true.
  rewrite bool_decide_eq_false. lia.
Qed.

Lemma rstrip_ends_visible (s : string) (c : ascii) :
  visible c = true → Json.rstrip (s +:+ String c "") = s +:+ String c "".
Proof.
  intros Hc. apply rstrip_app; [|done].
  simpl. by rewrite (visible_not_space c Hc).
Qed.

Lemma join_cons (sep x : string) (l : list string) :
  l ≠ [] → join sep (x :: l) = x +:+ sep +:+ join sep l.
Proof. by destruct l. Qed.

Lemma multiline_line (l : string) : line_ok l → multiline l.
Proof. intros Hl. exists [l]. split_and!; [done|by constructor|done]. Qed.

Lemma join_app (sep : string) (La Lb : list string) :
  La ≠ [] → Lb ≠ [] →
  join sep (La ++ Lb) = join sep La +:+ sep +:+ join sep Lb.
Proof.
  intros Hane Hbne. induction La as [|x La IH]; [done|].
  destruct La as [|y La].
  - change ([x] ++ Lb) with (x :: Lb). by rewrite join_cons.
  - change ((x :: y :: La) ++ Lb) with (x :: ((y :: La) ++ Lb)).
    rewrite (join_cons sep x ((y :: La) ++ Lb)), (join_cons sep x (y :: La))
      by done.
    rewrite IH by done. by rewrite !append_assoc.
Qed.

Lemma multiline_nl (a b : string) :
  multiline a → multiline b → multiline (a +:+ nl +:+ b).
Proof.
  intros (La & Hane & Ha & ->) (Lb & Hbne & Hb & ->).
  exists (La ++ Lb). split_and!.
  - by destruct La.
  - by apply Forall_app.
  - by rewrite join_app.
Qed.

Lemma multiline_prefix (p s : string) :
  string_forall printable p = true → multiline s → multiline (p +:+ s).
Proof.
  intros Hp (L & Hne & HL & ->).
  destruct L as [|l L]; [done|].
  apply Forall_cons in HL as [Hl HL].
  exists ((p +:+ l) :: L). split_and!; [done| |].
  - constructor; [by apply line_ok_prefix|done].
  - destruct L as [|l2 L]; [done|].
    rewrite (join_cons nl l), (join_cons nl (p +:+ l)) by done.
    by rewrite append_assoc.
Qed.

Lemma multiline_suffix (s q : string) :
  multiline s → line_ok q → multiline (s +:+ q).
Proof.
  intros (L & Hne & HL & ->) Hq.
  induction L as [|l L IH]; [done|].
  apply Forall_cons in HL as [Hl HL].
  destruct L as [|l2 L].
  - apply multiline_line. apply line_ok_suffix; [apply Hl|done].
  - rewrite join_cons by done. rewrite !append_assoc.
    apply multiline_nl; [by apply multiline_line|].
    by apply IH.
Qed.

(** The items of an array or an object, one per line behind the indent. *)
Lemma multiline_join_items (indent : string) (items : list string) :
  string_forall printable indent = true →
  items ≠ [] → Forall multiline items →
  multiline (indent +:+ join ("," +:+ nl +:+ indent) items).
Proof.
  intros Hind Hne Hitems.
  induction items as [|x items IH]; [done|].
  apply Forall_cons in Hitems as [Hx Hitems].
  destruct items as [|y items].
  - by apply multiline_prefix.
  - rewrite join_cons by done. rewrite !append_assoc.
    rewrite <-(append_assoc indent x).
    rewrite <-(append_assoc (indent +:+ x) ",").
    apply multiline_nl; [|by apply IH].
    apply multiline_suffix; [by apply multiline_prefix|].
    by split_and!.
Qed.

Lemma rstrip_visible (s : string) :
  string_forall visible s = true → Json.rstrip s = s.
Proof.
  induction s as [|c s IH]; [done|]. simpl.
  intros [Hc Hs]%andb_true_iff. rewrite (IH Hs).
  destruct s; [|done]. by rewrite (visible_not_space c Hc).
Qed.

Lemma line_ok_visible (s : string) :
  string_forall visible s = true → s ≠ "" → line_ok s.
Proof.
  intros Hs Hne. split_and!; [|by apply rstrip_visible|done].
  by apply (string_forall_impl visible), Hs; apply visible_printable.
Qed.

Lemma string_of_uint_visible (d : Decimal.uint) :
  string_forall visible (NilEmpty.string_of_uint d) = true.
Proof. induction d; simpl; by rewrite ?IHd. Qed.

Lemma string_of_int_line (i : Decimal.int) :
  line_ok (NilZero.string_of_int i).
Proof.
  apply line_ok_visible.
  - destruct i as [d|d]; simpl; unfold NilZero.string_of_uint;
      destruct d; simpl; by rewrite ?string_of_uint_visible.
  - destruct i as [d|d]; simpl; [|done].
    unfold NilZero.string_of_uint. by destruct d.
Qed.

Lemma escape_char_printable (c : ascii) :
  string_forall printable (Json.escape_char c) = true.
Proof.
  destruct c as [[|] [|] [|] [|] [|] [|] [|] [|]]; vm_compute; reflexivity.
Qed.

Lemma escape_printable (s : string) :
  string_forall printable (Json.escape s) = true.
Proof.
  induction s as [|c s IH]; [done|]. simpl.
  by rewrite string_forall_app, escape_char_printable, IH.
Qed.

Lemma encode_basestring_ascii_line (s : string) :
  line_ok (Json.encode_basestring_ascii s).
Proof.
  unfold Json.encode_basestring_ascii.
  apply line_ok_prefix; [done|].
  apply line_ok_suffix; [apply escape_printable|].
  by split_and!.
Qed.

Lemma spaces_printable (n : nat) :
  string_forall printable (Json.spaces n) = true.
Proof. induction n as [|n IH]; [done|]. simpl. by rewrite IH. Qed.

Lemma multiline_dict_entry (kv : string * string) :
  multiline kv.2 → multiline (Json.dict_entry kv).
Proof.
  intros Hv. unfold Json.dict_entry.
  apply multiline_prefix; [apply encode_basestring_ascii_line|].
  by apply multiline_prefix.
Qed.

(** The dump of any value is a text of well-formed lines. *)
Lemma multiline_encode (j : Json.t) :
  ∀ level : nat, multiline (Json.encode level j).
Proof.
  induction j as [|b|n|s|l IH|items IH] using json_ind; intros level.
  - by apply multiline_line; split_and!.
  - by destruct b; apply multiline_line; split_and!.
  - apply multiline_line, string_of_int_line.
  - apply multiline_line, encode_basestring_ascii_line.
  - rewrite encode_JList. destruct l as [|x l].
    { by apply multiline_line; split_and!. }
    set (items := Json.encode (S level) <$> x :: l).
    assert (multiline
              (Json.spaces (2 * S level)
               +:+ join ("," +:+ nl +:+ Json.spaces (2 * S level)) items))
      as Hitems.
    { apply multiline_join_items; [apply spaces_printable|done|].
      apply Forall_fmap. eapply Forall_impl; [exact IH|].
      intros j Hj. apply Hj. }
    assert (multiline (Json.spaces (2 * level) +:+ "]")) as Hclose.
    { apply multiline_prefix; [apply spaces_printable|].
      by apply multiline_line; split_and!. }
    pose proof (multiline_nl _ _
                  (multiline_nl "[" _
                     (multiline_line "[" ltac:(by split_and!)) Hitems)
                  Hclose) as H.
    unfold Json.newline_indent.
    rewrite !append_assoc in H. rewrite !append_assoc. exact H.
  - rewrite encode_JDict. destruct items as [|kv items].
    { by apply multiline_line; split_and!. }
    set (encoded :=
           (fun kv => (kv.1, Json.encode (S level) kv.2)) <$> kv :: items).
    set (entries := Json.dict_entry <$> sorted_items encoded).
    assert (Forall multiline entries) as Hentries.
    { apply Forall_fmap.
      rewrite (sorted_items_Permutation encoded).
      apply Forall_fmap. eapply Forall_impl; [exact IH|].
      intros e He. apply multiline_dict_entry, He. }
    assert (entries ≠ []) as Hne.
    { intros Hnil. apply (f_equal length) in Hnil.
      unfold entries in Hnil. rewrite length_fmap in Hnil.
      rewrite (sorted_items_Permutation encoded) in Hnil.
      unfold encoded in Hnil. by rewrite length_fmap in Hnil. }
    assert (multiline
              (Json.spaces (2 * S level)
               +:+ join ("," +:+ nl +:+ Json.spaces (2 * S level)) entries))
      as Hitems.
    { by apply multiline_join_items; [apply spaces_printable|..]. }
    assert (multiline (Json.spaces (2 * level) +:+ "}")) as Hclose.
    { apply multiline_prefix; [apply spaces_printable|].
      by apply multiline_line; split_and!. }
    pose proof (multiline_nl _ _
                  (multiline_nl "{" _
                     (multiline_line "{" ltac:(by split_and!)) Hitems)
                  Hclose) as H.
    unfold Json.newline_indent.
    rewrite !append_assoc in H. rewrite !append_assoc. exact H.
Qed.

Lemma printable_not_linebreak (c : ascii) :
  printable c = true → Json.is_linebreak c = false.
Proof.
  unfold printable, Json.is_linebreak. rewrite bool_decide_eq_true.
  rewrite bool_decide_eq_false. lia.
Qed.

Lemma splitlines_from_line (l acc rest : string) :
  string_forall printable l = true →
  Json.splitlines_from acc (l +:+ rest) =
  Json.splitlines_from (acc +:+ l) rest.
Proof.
  revert acc. induction l as [|c l IH]; intros acc Hl.
  - by rewrite append_nil_r.
  - simpl in Hl. apply andb_true_iff in Hl as [Hc Hl].
    rewrite append_cons. simpl.
    rewrite (printable_not_linebreak c Hc), (IH _ Hl).
    by rewrite append_assoc.
Qed.

Lemma splitlines_from_nl (acc rest : string) :
  Json.splitlines_from acc (nl +:+ rest) =
  acc :: Json.splitlines_from "" rest.
Proof.
  change (nl +:+ rest) with (String "010"%char rest).
  destruct rest as [|c rest]; reflexivity.
Qed.

Lemma splitlines_join (lines : list string) :
  lines ≠ [] → Forall line_ok lines →
  Json.splitlines (join nl lines) = lines.
Proof.
  intros Hne Hlines. unfold Json.splitlines.
  induction lines as [|l lines IH]; [done|].
  apply Forall_cons in Hlines as [(Hl & _ & Hlne) Hlines].
  destruct lines as [|l2 lines].
  - change (join nl [l]) with l. rewrite <-(append_nil_r l) at 1.
    rewrite (splitlines_from_line l "" "" Hl). simpl.
    by rewrite decide_False.
  - rewrite join_cons by done.
    rewrite (splitlines_from_line l "" _ Hl), splitlines_from_nl.
    by rewrite IH.
Qed.

(** On a text of well-formed lines the stripping pass changes nothing. *)
Lemma strip_pass_multiline (s : string) :
  multiline s → join nl (Json.rstrip <$> Json.splitlines s) = s.
Proof.
  intros (lines & Hne & Hlines & ->).
  rewrite splitlines_join by done. f_equal.
  clear Hne. induction Hlines as [|l lines (_ & Hstrip & _) _ IH]; [done|].
  csimpl. by rewrite Hstrip, IH.
Qed.

Lemma multiline_printable_or_nl (s : string) :
  multiline s → string_forall printable_or_nl s = true.
Proof.
  intros (lines & Hne & Hlines & ->).
  induction lines as [|l lines IH]; [done|].
  apply Forall_cons in Hlines as [(Hl & _) Hlines].
  assert (string_forall printable_or_nl l = true) as Hl'.
  { apply (string_forall_impl printable); [|done].
    intros c Hc. unfold printable_or_nl. by rewrite Hc. }
  destruct lines as [|l2 lines]; [done|].
  rewrite join_cons by done.
  rewrite !string_forall_app, Hl'. simpl. by apply IH.
Qed.

(** X10.  The schema literal of an Avro table is the JSON dump itself: the
    pass that splits the dump into lines and strips each line's trailing
    white space changes nothing, because the dump has no blank at the end of
    a line and no line break other than the line feeds of its layout. *)
Theorem avro_schema_literal_is_dump (self : AvroFormat.t) :
  AvroFormat.to_ddl self =
    ["STORED AS AVRO";
     "LOCATION '" +:+ AvroFormat.path self +:+ "'";
     "TBLPROPERTIES (" +:+ nl
     +:+ "  'avro.schema.literal'='"
     +:+ Json.dumps (AvroFormat.avro_schema self) +:+ "'" +:+ nl +:+ ")"].
Proof.
  unfold AvroFormat.to_ddl. do 2 f_equal.
  rewrite strip_pass_multiline by apply multiline_encode.
  unfold format_tblproperties, _format_properties.
  change (sorted_items
            [("avro.schema.literal", Json.dumps (AvroFormat.avro_schema self))])
    with [("avro.schema.literal", Json.dumps (AvroFormat.avro_schema self))].
  unfold property_token. simpl. by rewrite !append_assoc.
Qed.

(** X11.  Whatever strings an Avro schema contains, its dump consists of
    printable ASCII characters and line feeds only: every other character of
    a key or a string value is written as an escape. *)
Theorem avro_schema_dump_is_ascii (self : AvroFormat.t) :
  string_forall printable_or_nl (Json.dumps (AvroFormat.avro_schema self))
    = true.
Proof. apply multiline_printable_or_nl, multiline_encode. Qed.

(** ** INSERT and LOAD DATA *)



(** ** ALTER TABLE ... PARTITION with nothing to change *)

(** X15.  An AlterPartition with no location, format or properties compiles
    to [ALTER TABLE <table>] and the PARTITION clause alone: unlike
    AlterTable, it then emits no SET keyword at all. *)
Theorem alter_partition_nothing_set (table : string)
    (partition : PartitionSpec) (partition_schema : Schema) :
  ∃ clause : string,
    _format_partition partition partition_schema = Ok clause
    ∧ AlterPartition.compile
        (PartitionProperties.Build
           (AlterTable.Build table None None None None)
           partition partition_schema) =
      Ok ("ALTER TABLE " +:+ table +:+ " " +:+ clause).
Proof.
  destruct (format_partition_Ok partition partition_schema)
    as [clause Hclause].
  exists clause. split; [done|].
  unfold AlterPartition.compile, PartitionProperties._compile. simpl.
  rewrite Hclause. simpl. unfold AlterTable._wrap_command.
  unfold AlterTable._format_properties. simpl.
  by rewrite append_nil_r.
Qed.

(** ** CREATE TABLE from an Avro schema *)

(** X16.  CreateTableAvro yields a single piece: the three clauses of its
    Avro format, STORED AS AVRO, the location and the schema literal, each on
    a line of its own. *)
Theorem create_table_avro_single_piece (path : string) (avro_schema : Json.t) :
  CreateTableAvro._pieces
    (CreateTableAvro.Build (AvroFormat.Build path avro_schema)) =
  yields
    ["STORED AS AVRO" +:+ nl
     +:+ "LOCATION '" +:+ path +:+ "'" +:+ nl
     +:+ "TBLPROPERTIES (" +:+ nl
     +:+ "  'avro.schema.literal'='" +:+ Json.dumps avro_schema +:+ "'"
     +:+ nl +:+ ")"].
Proof.
  unfold CreateTableAvro._pieces. simpl CreateTableAvro.table_format.
  assert (AvroFormat.to_ddl (AvroFormat.Build path avro_schema) =
    ["STORED AS AVRO";
     "LOCATION '" +:+ path +:+ "'";
     "TBLPROPERTIES (" +:+ nl
     +:+ "  'avro.schema.literal'='" +:+ Json.dumps avro_schema +:+ "'"
     +:+ nl +:+ ")"]) as ->.
  { unfold AvroFormat.to_ddl. do 2 f_equal.
    rewrite strip_pass_multiline by apply multiline_encode.
    unfold format_tblproperties, _format_properties.
    change (sorted_items [("avro.schema.literal", Json.dumps avro_schema)])
      with [("avro.schema.literal", Json.dumps avro_schema)].
    unfold property_token. simpl. by rewrite !append_assoc. }
  unfold yields. f_equal. simpl. by rewrite !append_assoc.
Qed.
